(** * Port manager of the App Engine VM runtime client

    A shallow embedding of
    [google/appengine/client/services/port_manager.py] and the
    properties of its [PortManager] class: validation of forwarded-port
    batches ([Add]), the committed mapping ([GetAllMappedPorts]) and the
    two renderings ([_BuildDockerPublishArgumentString],
    [GetReplicaPoolParameters]).

    Python values are modelled as follows.
    - [int] is [Z].
    - [str] is [string]; a character is a code point below 256.
    - [dict] is an insertion-ordered association list ([PyDict.t]): a
      key that is assigned again keeps its position, a new key goes to
      the end, which is the iteration order of [dict.items()].
    - A method is a function of the object's state that returns a
      result or a raised exception together with the state it leaves
      behind; what a raising call has already written to [self] stays
      written. *)

From Stdlib Require Import ZArith List String Ascii Bool Lia.
From Stdlib Require Import Decimal DecimalString DecimalZ.
Import ListNotations.

Local Open Scope string_scope.
Local Open Scope Z_scope.

(** ** Python strings *)

Module PyStr.

Definition code (a : ascii) : N := N_of_ascii a.

(** Characters that [int()] skips around a literal: the ASCII white
    space and, of the code points 128..255, NEL and NBSP. *)
Definition is_int_space (a : ascii) : bool :=
  let c := code a in
  (((9 <=? c) && (c <=? 13)) || (c =? 32) || (c =? 133) || (c =? 160))%N.

(** Characters removed by [str.strip()]: those for which
    [str.isspace] holds, that is the ones above and the separators
    0x1c..0x1f. *)
Definition is_space (a : ascii) : bool :=
  let c := code a in
  (is_int_space a || ((28 <=? c) && (c <=? 31)))%N.

Fixpoint lstrip_by (f : ascii -> bool) (s : string) : string :=
  match s with
  | EmptyString => EmptyString
  | String a s' => if f a then lstrip_by f s' else s
  end.

Fixpoint rstrip_by (f : ascii -> bool) (s : string) : string :=
  match s with
  | EmptyString => EmptyString
  | String a s' =>
      match rstrip_by f s' with
      | EmptyString => if f a then EmptyString else String a EmptyString
      | r => String a r
      end
  end.

Definition strip_by (f : ascii -> bool) (s : string) : string :=
  rstrip_by f (lstrip_by f s).

(** [s.strip()] *)
Definition strip (s : string) : string := strip_by is_space s.

(** [c in s] for a one-character [c] *)
Fixpoint contains (c : ascii) (s : string) : bool :=
  match s with
  | EmptyString => false
  | String a s' => Ascii.eqb a c || contains c s'
  end.

(** [s.split(c)] for a one-character separator [c] *)
Fixpoint split (c : ascii) (s : string) : list string :=
  match s with
  | EmptyString => [EmptyString]
  | String a s' =>
      if Ascii.eqb a c then EmptyString :: split c s'
      else match split c s' with
           | h :: t => String a h :: t
           | [] => [String a EmptyString]
           end
  end.

(** The digits of a decimal literal: groups of digits separated by
    single underscores, no underscore first or last. *)
Fixpoint digits (s : string) : option uint :=
  match s with
  | EmptyString => None
  | String a s' =>
      match s' with
      | EmptyString => uint_of_char a (Some Nil)
      | String b s'' =>
          if Ascii.eqb b "_" then uint_of_char a (digits s'')
          else uint_of_char a (digits s')
      end
  end.

(** [int(s)]; [None] stands for [ValueError].  The bound that recent
    interpreters put on the number of digits is left out. *)
Definition int (s : string) : option Z :=
  match strip_by is_int_space s with
  | EmptyString => None
  | String a s' as t =>
      if Ascii.eqb a "+" then option_map Z.of_uint (digits s')
      else if Ascii.eqb a "-" then
        option_map (fun d => - Z.of_uint d) (digits s')
      else option_map Z.of_uint (digits t)
  end.

(** ['%d' % n] and [str(n)] *)
Definition of_int (n : Z) : string := NilZero.string_of_int (Z.to_int n).

(** The characters of a printed integer: digits and the minus sign. *)
Definition is_digit (a : ascii) : bool :=
  let c := code a in ((48 <=? c) && (c <=? 57))%N.

Definition is_numeric (a : ascii) : bool := is_digit a || Ascii.eqb a "-".

Fixpoint forall_chars (f : ascii -> bool) (s : string) : bool :=
  match s with
  | EmptyString => true
  | String a s' => f a && forall_chars f s'
  end.

(** [''.join(l)] *)
Definition join (l : list string) : string := fold_right append "" l.

End PyStr.

(** ** Python dictionaries with integer keys and values *)

Module PyDict.

Definition t : Type := list (Z * Z).

Definition empty : t := [].

(** [not d] *)
Definition is_empty (d : t) : bool :=
  match d with [] => true | _ :: _ => false end.

(** [d[k]], [None] when the key is absent *)
Fixpoint get (k : Z) (d : t) : option Z :=
  match d with
  | [] => None
  | (k', v') :: d' => if k' =? k then Some v' else get k d'
  end.

(** [k in d] *)
Definition mem (k : Z) (d : t) : bool :=
  match get k d with Some _ => true | None => false end.

(** [d[k] = v] *)
Fixpoint set (k v : Z) (d : t) : t :=
  match d with
  | [] => [(k, v)]
  | (k', v') :: d' =>
      if k' =? k then (k, v) :: d' else (k', v') :: set k v d'
  end.

(** [d.update(other)] *)
Definition update (d other : t) : t :=
  fold_left (fun acc kv => set (fst kv) (snd kv) acc) other d.

(** [d.items()] *)
Definition items (d : t) : list (Z * Z) := d.

Definition keys (d : t) : list Z := map fst d.

(** A dictionary holds each key once. *)
Definition wf (d : t) : Prop := NoDup (keys d).

End PyDict.

(** ** Module constants *)

(** Modelled from the spec: [vme_constants.DEFAULT_SERVING_PORT], whose
    module is not part of the sources at hand.  The spec names 8080 as
    the default serving port, and so does the comment on the assignment
    in [_BuildDockerPublishArgumentString]. *)
Definition DEFAULT_SERVING_PORT : Z := 8080.

Definition RESERVED_HOST_PORTS : list Z :=
  [22; 5000; DEFAULT_SERVING_PORT; 10000; 10001].

Definition RESERVED_DOCKER_PORTS : list Z := [22; 5000; 10001].

Definition DEFAULT_CONTAINER_PORT : Z := DEFAULT_SERVING_PORT.
Definition VM_PORT_FOR_CONTAINER : Z := DEFAULT_SERVING_PORT.

(** [x in l] for a list of integers *)
Definition py_in (x : Z) (l : list Z) : bool := existsb (Z.eqb x) l.

(** ** Exceptions

    The two exception classes of the module.  Their messages are kept
    as the data the format strings are filled with.  Both derive from
    [vme_errors.PermanentAppError], which is not a [ValueError]: the
    [except ValueError] clause of [Add] lets them through, as the
    [Raises] section of its docstring says. *)

Inductive illegal_reason : Type :=
| InvalidPort (kind port : string)
| PrivilegedPort (docker_port : Z)
| ReservedDockerPort (docker_port : Z)
| ReservedHostPort (host_port : Z)
| BadPortDescription (kind port : string).

Inductive exn : Type :=
| InconsistentPortConfigurationError (host_port : Z)
| IllegalPortConfigurationError (why : illegal_reason).

(** ** The object and its methods *)

Record PortManager : Type := mkPortManager {
  used_host_ports : PyDict.t;
  _port_mappings : PyDict.t;
  container_port : Z
}.

Inductive outcome (A : Type) : Type :=
| Return (a : A)
| Raise (e : exn).
Arguments Return {A} a.
Arguments Raise {A} e.

(** A method runs on [self] and leaves [self] behind, also when it
    raises. *)
Definition Method (A : Type) : Type := PortManager -> outcome A * PortManager.

Definition ret {A : Type} (a : A) : Method A := fun self => (Return a, self).

Definition raise {A : Type} (e : exn) : Method A := fun self => (Raise e, self).

Definition bind {A B : Type} (m : Method A) (k : A -> Method B) : Method B :=
  fun self =>
    match m self with
    | (Return a, self') => k a self'
    | (Raise e, self') => (Raise e, self')
    end.

Definition read {A : Type} (f : PortManager -> A) : Method A :=
  fun self => (Return (f self), self).

Definition write (f : PortManager -> PortManager) : Method unit :=
  fun self => (Return tt, f self).

Notation "x <- m ;; k" := (bind m (fun x => k))
  (at level 61, m at next level, right associativity).
Notation "m ;;; k" := (bind m (fun _ => k))
  (at level 61, right associativity).

(** [PortManager(container_port)] *)
Definition __init__ (container_port : Z) : PortManager :=
  {| used_host_ports := PyDict.empty;
     _port_mappings := PyDict.empty;
     container_port := container_port |}.

(** The [ports] argument of [Add]: a CSV string or a list of strings. *)
Inductive ports_arg : Type :=
| PortsStr (s : string)
| PortsList (l : list string).

(** The list the loop of [Add] runs over. *)
Definition port_list (ports : ports_arg) : list string :=
  match ports with
  | PortsStr s => map PyStr.strip (PyStr.split "," s)
  | PortsList l => l
  end.

(** The two branches on [':' in port]: the ports a description stands
    for, [None] when a [ValueError] is raised ([int()] on a part, or
    unpacking a split that has not exactly two parts). *)
Definition parse_port (port : string) : option (Z * Z) :=
  if PyStr.contains ":" port then
    match map (fun p => PyStr.int (PyStr.strip p)) (PyStr.split ":" port) with
    | [Some host_port; Some docker_port] => Some (host_port, docker_port)
    | _ => None
    end
  else
    match PyStr.int port with
    | Some host_port => Some (host_port, host_port)
    | None => None
    end.

Definition out_of_range (host_port docker_port : Z) : bool :=
  (host_port <? 1) || (host_port >? 65535) ||
  (docker_port <? 1) || (docker_port >? 65535).

(** [host_port in self.used_host_ports and
     self.used_host_ports[host_port] != docker_port] *)
Definition conflicts (host_port docker_port : Z) (used : PyDict.t) : bool :=
  match PyDict.get host_port used with
  | Some p => negb (p =? docker_port)
  | None => false
  end.

Definition record_used (host_port docker_port : Z) (self : PortManager)
  : PortManager :=
  {| used_host_ports := PyDict.set host_port docker_port (used_host_ports self);
     _port_mappings := _port_mappings self;
     container_port := container_port self |}.

(** One turn of the loop of [Add], on [port], with the
    [port_translations] built so far. *)
Definition Add_port (kind port : string) (port_translations : PyDict.t)
  : Method PyDict.t :=
  match parse_port port with
  | None => raise (IllegalPortConfigurationError (BadPortDescription kind port))
  | Some (host_port, docker_port) =>
      let port_translations :=
        PyDict.set host_port docker_port port_translations in
      used <- read used_host_ports ;;
      if conflicts host_port docker_port used then
        raise (InconsistentPortConfigurationError host_port)
      else
        write (record_used host_port docker_port) ;;;
        if out_of_range host_port docker_port then
          raise (IllegalPortConfigurationError (InvalidPort kind port))
        else if docker_port <? 1024 then
          raise (IllegalPortConfigurationError (PrivilegedPort docker_port))
        else if py_in docker_port RESERVED_DOCKER_PORTS then
          raise (IllegalPortConfigurationError (ReservedDockerPort docker_port))
        else if py_in host_port RESERVED_HOST_PORTS then
          raise (IllegalPortConfigurationError (ReservedHostPort host_port))
        else
          ret port_translations
  end.

(** [for port in ports: ...] *)
Fixpoint Add_loop (kind : string) (ports : list string)
  (port_translations : PyDict.t) : Method PyDict.t :=
  match ports with
  | [] => ret port_translations
  | port :: ports' =>
      port_translations <- Add_port kind port port_translations ;;
      Add_loop kind ports' port_translations
  end.

Definition commit (port_translations : PyDict.t) (self : PortManager)
  : PortManager :=
  {| used_host_ports := used_host_ports self;
     _port_mappings := PyDict.update (_port_mappings self) port_translations;
     container_port := container_port self |}.

Definition Add (ports : ports_arg) (kind : string) : Method PyDict.t :=
  port_translations <- Add_loop kind (port_list ports) PyDict.empty ;;
  write (commit port_translations) ;;;
  ret port_translations.

(** [CreatePortManager(forwarded_ports, container_port)]; a false
    [forwarded_ports] ([None], an empty string or list) is replaced by
    the empty list. *)
Definition CreatePortManager (forwarded_ports : option ports_arg)
  (container_port : Z) : outcome unit * PortManager :=
  let ports_list :=
    match forwarded_ports with
    | None | Some (PortsStr EmptyString) | Some (PortsList []) => PortsList []
    | Some ports => ports
    end in
  (Add ports_list "forwarded" ;;; ret tt) (__init__ container_port).

(** What a variable that holds a dictionary refers to: a dictionary of
    its own, or the one in [self._port_mappings]. *)
Inductive dict_ref : Type :=
| OwnDict (d : PyDict.t)
| SelfPortMappings.

Definition deref (r : dict_ref) (self : PortManager) : PyDict.t :=
  match r with
  | OwnDict d => d
  | SelfPortMappings => _port_mappings self
  end.

Definition store_port_mapping (k v : Z) (self : PortManager) : PortManager :=
  {| used_host_ports := used_host_ports self;
     _port_mappings := PyDict.set k v (_port_mappings self);
     container_port := container_port self |}.

(** [r[k] = v] *)
Definition setitem (r : dict_ref) (k v : Z) : Method dict_ref :=
  match r with
  | OwnDict d => ret (OwnDict (PyDict.set k v d))
  | SelfPortMappings => write (store_port_mapping k v) ;;; ret SelfPortMappings
  end.

(** Returns a new empty dictionary when there is no mapping, and
    [self._port_mappings] itself otherwise. *)
Definition GetAllMappedPorts : Method dict_ref :=
  mappings <- read _port_mappings ;;
  if PyDict.is_empty mappings then ret (OwnDict PyDict.empty)
  else ret SelfPortMappings.

(** The mapping a caller sees in what [GetAllMappedPorts] returns. *)
Definition AllMappings (self : PortManager) : PyDict.t :=
  match GetAllMappedPorts self with
  | (Return r, self') => deref r self'
  | (Raise _, _) => PyDict.empty
  end.

(** ['--publish=%d:%s ' % (k, v)] *)
Definition publish_token (kv : Z * Z) : string :=
  "--publish=" ++ PyStr.of_int (fst kv) ++ ":" ++ PyStr.of_int (snd kv) ++ " ".

Definition _BuildDockerPublishArgumentString : Method string :=
  port_map <- GetAllMappedPorts ;;
  cp <- read container_port ;;
  port_map <- setitem port_map VM_PORT_FOR_CONTAINER cp ;;
  items <- read (fun self => PyDict.items (deref port_map self)) ;;
  ret (fold_left (fun result kv => result ++ publish_token kv) items "").

(** The nested dictionaries and lists of strings that
    [GetReplicaPoolParameters] builds. *)
#[warnings="-register-all"]
Inductive pyval : Type :=
| VStr (s : string)
| VList (l : list pyval)
| VDict (d : list (string * pyval)).

Definition GetReplicaPoolParameters : Method pyval :=
  publish_ports <- _BuildDockerPublishArgumentString ;;
  ret (VDict
         [("template",
           VDict
             [("vmParams",
               VDict
                 [("metadata",
                   VDict
                     [("items",
                       VList
                         [VDict [("key", VStr "gae_publish_ports");
                                 ("value", VStr publish_ports)]])])])])]).

(** [v[key]] on a dictionary value *)
Definition subscript (key : string) (v : pyval) : option pyval :=
  match v with
  | VDict d =>
      match find (fun kv => String.eqb (fst kv) key) d with
      | Some kv => Some (snd kv)
      | None => None
      end
  | _ => None
  end.

(** [v[k1][k2]...] *)
Fixpoint at_path (path : list string) (v : pyval) : option pyval :=
  match path with
  | [] => Some v
  | key :: path' =>
      match subscript key v with
      | Some v' => at_path path' v'
      | None => None
      end
  end.

(** Calls on a [PortManager], and the object a sequence of calls
    leaves behind (an exception raised by a call is caught by the
    caller, who goes on with the same object). *)
Inductive call : Type :=
| CallAdd (ports : ports_arg) (kind : string)
| CallGetAllMappedPorts
| CallBuildDockerPublishArgumentString
| CallGetReplicaPoolParameters.

Definition run_call (self : PortManager) (c : call) : PortManager :=
  match c with
  | CallAdd ports kind => snd (Add ports kind self)
  | CallGetAllMappedPorts => snd (GetAllMappedPorts self)
  | CallBuildDockerPublishArgumentString =>
      snd (_BuildDockerPublishArgumentString self)
  | CallGetReplicaPoolParameters => snd (GetReplicaPoolParameters self)
  end.

Definition run_calls (calls : list call) (self : PortManager) : PortManager :=
  fold_left run_call calls self.

(** The checks of [Add] that depend on the description alone. *)
Definition legal_pair (host_port docker_port : Z) : bool :=
  negb (out_of_range host_port docker_port) &&
  negb (docker_port <? 1024) &&
  negb (py_in docker_port RESERVED_DOCKER_PORTS) &&
  negb (py_in host_port RESERVED_HOST_PORTS).

Definition legal_port (port : string) : bool :=
  match parse_port port with
  | Some (host_port, docker_port) => legal_pair host_port docker_port
  | None => false
  end.

(** The invariant the spec states for an entry of the mapping. *)
Definition entry_ok (kv : Z * Z) : Prop :=
  1 <= fst kv <= 65535 /\ 1 <= snd kv <= 65535 /\ 1024 <= snd kv /\
  ~ In (snd kv) RESERVED_DOCKER_PORTS /\ ~ In (fst kv) RESERVED_HOST_PORTS.

(** What the loop has put into [port_translations] is recorded with
    the same value in [used_host_ports], and is legal. *)
Definition translations_ok (pt : PyDict.t) (self : PortManager) : Prop :=
  forall k v, In (k, v) pt ->
    PyDict.get k (used_host_ports self) = Some v /\ legal_pair k v = true.

(** A description fails validation, in a batch that has the
    descriptions [earlier] before it, when it is illegal by itself or
    asks for a host port that the object has recorded, or that an
    earlier description of the batch asks for, with another container
    port. *)
Definition fails_validation (self : PortManager) (earlier : list string)
  (port : string) : Prop :=
  legal_port port = false \/
  exists h c p,
    parse_port port = Some (h, c) /\ p <> c /\
    (PyDict.get h (used_host_ports self) = Some p \/
     exists port', In port' earlier /\ parse_port port' = Some (h, p)).

(** The descriptions that the spec says are rejected with nothing
    changed: text that is no number, and ports outside [1, 65535]. *)
Definition malformed_or_out_of_range (port : string) : bool :=
  match parse_port port with
  | Some (host_port, docker_port) => out_of_range host_port docker_port
  | None => true
  end.

(** A host port is tracked with [c] when both dictionaries of the
    object map it to [c]. *)
Definition tracked (h c : Z) (self : PortManager) : Prop :=
  PyDict.get h (used_host_ports self) = Some c /\
  PyDict.get h (_port_mappings self) = Some c.

(** The pairs that [_BuildDockerPublishArgumentString] iterates over. *)
Definition published_pairs (self : PortManager) : list (Z * Z) :=
  PyDict.items
    (PyDict.set VM_PORT_FOR_CONTAINER (container_port self)
                (_port_mappings self)).

(** The pairs that the descriptions of a batch stand for, in the order
    of the batch; a malformed description stands for none. *)
Definition batch_pairs (ports : list string) : list (Z * Z) :=
  flat_map (fun port => match parse_port port with
                        | Some kv => [kv]
                        | None => []
                        end) ports.

(** The object with another dictionary in [_port_mappings]. *)
Definition with_port_mappings (m : PyDict.t) (self : PortManager)
  : PortManager :=
  {| used_host_ports := used_host_ports self;
     _port_mappings := m;
     container_port := container_port self |}.

(** The calls that build the publish string. *)
Definition is_render (c : call) : bool :=
  match c with
  | CallBuildDockerPublishArgumentString | CallGetReplicaPoolParameters => true
  | CallAdd _ _ | CallGetAllMappedPorts => false
  end.

(** A batch is acceptable to an object when each description is legal,
    no host port of the batch is recorded with another container port,
    and no two descriptions give a host port two container ports. *)
Definition acceptable (self : PortManager) (ports : list string) : Prop :=
  (forall port, In port ports -> legal_port port = true) /\
  (forall port h c p,
      In port ports -> parse_port port = Some (h, c) ->
      PyDict.get h (used_host_ports self) = Some p -> p = c) /\
  (forall port1 port2 h c1 c2,
      In port1 ports -> In port2 ports ->
      parse_port port1 = Some (h, c1) -> parse_port port2 = Some (h, c2) ->
      c1 = c2).

(** What an exception of [Add] says about the batch and the object it
    was raised for. *)
Definition justified (self : PortManager) (kind : string)
  (ports : list string) (e : exn) : Prop :=
  match e with
  | InconsistentPortConfigurationError h =>
      exists port c p,
        In port ports /\ parse_port port = Some (h, c) /\ p <> c /\
        (PyDict.get h (used_host_ports self) = Some p \/
         exists port', In port' ports /\ parse_port port' = Some (h, p))
  | IllegalPortConfigurationError (BadPortDescription k port) =>
      k = kind /\ In port ports /\ parse_port port = None
  | IllegalPortConfigurationError (InvalidPort k port) =>
      k = kind /\ In port ports /\
      exists h c, parse_port port = Some (h, c) /\ out_of_range h c = true
  | IllegalPortConfigurationError (PrivilegedPort c) =>
      1 <= c < 1024 /\
      exists port h, In port ports /\ parse_port port = Some (h, c) /\
                     1 <= h <= 65535
  | IllegalPortConfigurationError (ReservedDockerPort c) =>
      (c = 5000 \/ c = 10001) /\
      exists port h, In port ports /\ parse_port port = Some (h, c) /\
                     1 <= h <= 65535
  | IllegalPortConfigurationError (ReservedHostPort h) =>
      In h RESERVED_HOST_PORTS /\
      exists port c, In port ports /\ parse_port port = Some (h, c) /\
                     1024 <= c <= 65535 /\ ~ In c RESERVED_DOCKER_PORTS
  end.

(** * Facts *)

(** ** Dictionaries *)

Module PyDictFacts.
Import PyDict.

Lemma get_set_same k v d : get k (set k v d) = Some v.
Proof.
  induction d as [|[k' v'] d IH]; simpl.
  - now rewrite Z.eqb_refl.
  - destruct (k' =? k) eqn:E; simpl.
    + now rewrite Z.eqb_refl.
    + now rewrite E.
Qed.

Lemma get_set_other k k' v d : k <> k' -> get k' (set k v d) = get k' d.
Proof.
  intros Hne. induction d as [|[k0 v0] d IH]; simpl.
  - destruct (k =? k') eqn:E; [apply Z.eqb_eq in E; contradiction | reflexivity].
  - destruct (k0 =? k) eqn:E; simpl.
    + apply Z.eqb_eq in E. subst k0.
      destruct (k =? k') eqn:E'; [apply Z.eqb_eq in E'; contradiction | reflexivity].
    + destruct (k0 =? k'); [reflexivity | exact IH].
Qed.

Lemma set_noop k v d : get k d = Some v -> set k v d = d.
Proof.
  induction d as [|[k' v'] d IH]; simpl; [discriminate|].
  destruct (k' =? k) eqn:E.
  - apply Z.eqb_eq in E. intros [= ->]. now subst.
  - intros H. now rewrite IH.
Qed.

Lemma get_In k v d : get k d = Some v -> In (k, v) d.
Proof.
  induction d as [|[k' v'] d IH]; simpl; [discriminate|].
  destruct (k' =? k) eqn:E.
  - apply Z.eqb_eq in E. intros [= ->]. left. now subst.
  - intros H. right. now apply IH.
Qed.

Lemma get_None_keys k d : get k d = None <-> ~ In k (keys d).
Proof.
  induction d as [|[k' v'] d IH]; simpl.
  - tauto.
  - destruct (k' =? k) eqn:E.
    + apply Z.eqb_eq in E. split; [discriminate | intros H; exfalso; apply H; now left].
    + apply Z.eqb_neq in E. rewrite IH. tauto.
Qed.

Lemma In_get k v d : wf d -> In (k, v) d -> get k d = Some v.
Proof.
  unfold wf. induction d as [|[k' v'] d IH]; simpl; [tauto|].
  intros Hnd [Heq | Hin].
  - injection Heq as -> ->. now rewrite Z.eqb_refl.
  - inversion Hnd as [|? ? Hk Hd]; subst.
    destruct (k' =? k) eqn:E.
    + apply Z.eqb_eq in E. subst k'. exfalso. apply Hk.
      change k with (fst (k, v)). now apply in_map.
    + now apply IH.
Qed.

Lemma In_set kv k v d : In kv (set k v d) -> kv = (k, v) \/ In kv d.
Proof.
  induction d as [|[k' v'] d IH]; simpl.
  - intros [<- | []]. now left.
  - destruct (k' =? k); simpl; intros [<- | H]; auto.
    destruct (IH H); auto.
Qed.

Lemma keys_set k v d :
  keys (set k v d) = if mem k d then keys d else (keys d ++ [k])%list.
Proof.
  unfold mem. induction d as [|[k' v'] d IH]; simpl; [reflexivity|].
  destruct (k' =? k) eqn:E; simpl.
  - apply Z.eqb_eq in E. now subst.
  - rewrite IH. now destruct (get k d).
Qed.

Lemma wf_empty : wf empty.
Proof. constructor. Qed.

Lemma wf_set k v d : wf d -> wf (set k v d).
Proof.
  unfold wf. intros Hd. rewrite keys_set. unfold mem.
  destruct (get k d) eqn:E; [exact Hd|].
  apply get_None_keys in E.
  apply NoDup_rev in Hd. rewrite <- (rev_involutive (keys d ++ [k])).
  apply NoDup_rev. rewrite rev_app_distr. simpl. constructor; [|exact Hd].
  now rewrite <- in_rev.
Qed.

Lemma wf_update d o : wf d -> wf (update d o).
Proof.
  unfold update. revert d.
  induction o as [|[k v] o IH]; simpl; intros d Hd; [exact Hd|].
  apply IH. now apply wf_set.
Qed.

(** Under [wf], the entries of [set k v d] are [(k, v)] and the
    entries of [d] at the other keys. *)
Lemma In_set_iff k v d k' v' :
  wf d ->
  In (k', v') (set k v d) <->
  (k' = k /\ v' = v) \/ (k' <> k /\ In (k', v') d).
Proof.
  intros Hd. split.
  - intros Hin. apply In_get in Hin; [|now apply wf_set].
    destruct (Z.eq_dec k' k) as [->|Hne].
    + rewrite get_set_same in Hin. injection Hin as <-. now left.
    + rewrite get_set_other in Hin by congruence.
      right. split; [exact Hne | now apply get_In].
  - intros [[-> ->] | [Hne Hin]]; apply get_In.
    + apply get_set_same.
    + rewrite get_set_other by congruence. now apply In_get.
Qed.

Lemma In_update kv d o : In kv (update d o) -> In kv d \/ In kv o.
Proof.
  unfold update. revert d.
  induction o as [|[k v] o IH]; simpl; intros d H; [now left|].
  apply IH in H. destruct H as [H | H]; [|now right; right].
  apply In_set in H. destruct H as [-> | H]; auto.
Qed.

(** A key that [d] maps to [c], and that [o] maps to nothing else,
    is still mapped to [c] by [d.update(o)]. *)
Lemma get_update_agree k c d o :
  get k d = Some c ->
  (forall v, In (k, v) o -> v = c) ->
  get k (update d o) = Some c.
Proof.
  unfold update. revert d.
  induction o as [|[k' v'] o IH]; simpl; intros d Hd Ho; [exact Hd|].
  apply IH; [|intros v Hv; apply Ho; now right].
  destruct (Z.eq_dec k' k) as [->|Hne].
  - rewrite (Ho v') by now left. apply get_set_same.
  - now rewrite get_set_other.
Qed.

Lemma get_update_In k c d o :
  In (k, c) o ->
  (forall v, In (k, v) o -> v = c) ->
  get k (update d o) = Some c.
Proof.
  unfold update. revert d.
  induction o as [|[k' v'] o IH]; simpl; intros d Hin Ho; [contradiction|].
  destruct Hin as [Heq | Hin].
  - injection Heq as -> ->.
    apply (get_update_agree k c); [apply get_set_same|].
    intros v Hv. apply Ho. now right.
  - apply IH; [exact Hin|]. intros v Hv. apply Ho. now right.
Qed.

Lemma update_single k v d : update d [(k, v)] = set k v d.
Proof. reflexivity. Qed.

End PyDictFacts.

(** ** Printed integers are read back *)

Module PyStrFacts.
Import PyStr.

Lemma forall_chars_impl (f g : ascii -> bool) s :
  (forall a, f a = true -> g a = true) ->
  forall_chars f s = true -> forall_chars g s = true.
Proof.
  intros Hfg. induction s as [|a s IH]; simpl; [reflexivity|].
  intros H. apply andb_prop in H. destruct H as [Ha Hs].
  now rewrite (Hfg _ Ha), IH.
Qed.

Lemma forall_chars_app f s t :
  forall_chars f (s ++ t) = forall_chars f s && forall_chars f t.
Proof.
  induction s as [|a s IH]; simpl; [reflexivity|].
  now rewrite IH, andb_assoc.
Qed.

Lemma digit_classes a :
  is_digit a = true ->
  is_numeric a = true /\ Ascii.eqb a "_" = false /\
  Ascii.eqb a "+" = false /\ Ascii.eqb a "-" = false.
Proof.
  destruct a as [[|] [|] [|] [|] [|] [|] [|] [|]]; vm_compute;
    intros H; try discriminate H; auto.
Qed.

Lemma numeric_classes a :
  is_numeric a = true ->
  is_space a = false /\ is_int_space a = false /\ Ascii.eqb a ":" = false.
Proof.
  destruct a as [[|] [|] [|] [|] [|] [|] [|] [|]]; vm_compute;
    intros H; try discriminate H; auto.
Qed.

Lemma lstrip_by_head f a s : f a = false -> lstrip_by f (String a s) = String a s.
Proof. simpl. now intros ->. Qed.

Lemma rstrip_by_none f s :
  forall_chars (fun a => negb (f a)) s = true -> rstrip_by f s = s.
Proof.
  induction s as [|a s IH]; simpl; [reflexivity|].
  intros H. apply andb_prop in H. destruct H as [Ha Hs].
  rewrite (IH Hs). apply negb_true_iff in Ha. rewrite Ha. now destruct s.
Qed.

(** White space after [s] is stripped. *)
Lemma rstrip_by_app_char f s b :
  f b = true -> rstrip_by f (s ++ String b "") = rstrip_by f s.
Proof.
  intros Hb. induction s as [|a s IH]; simpl; [now rewrite Hb|].
  now rewrite IH.
Qed.

Lemma strip_by_none f s :
  forall_chars (fun a => negb (f a)) s = true -> strip_by f s = s.
Proof.
  intros H. unfold strip_by.
  assert (Hl : lstrip_by f s = s).
  { destruct s as [|a s]; [reflexivity|]. simpl in *.
    apply andb_prop in H. destruct H as [Ha _].
    apply negb_true_iff in Ha. now rewrite Ha. }
  rewrite Hl. now apply rstrip_by_none.
Qed.

Lemma strip_by_none_app_char f s b :
  forall_chars (fun a => negb (f a)) s = true -> f b = true ->
  strip_by f (s ++ String b "") = s.
Proof.
  intros H Hb. unfold strip_by. destruct s as [|a s].
  - simpl. now rewrite Hb.
  - assert (Ha : f a = false).
    { simpl in H. apply andb_prop in H. destruct H as [Ha _].
      now apply negb_true_iff in Ha. }
    change (String a s ++ String b "") with (String a (s ++ String b "")).
    rewrite lstrip_by_head by exact Ha.
    change (String a (s ++ String b "")) with (String a s ++ String b "").
    rewrite rstrip_by_app_char by exact Hb. now apply rstrip_by_none.
Qed.

Lemma contains_forall c s :
  forall_chars (fun a => negb (Ascii.eqb a c)) s = true -> contains c s = false.
Proof.
  induction s as [|a s IH]; simpl; [reflexivity|].
  intros H. apply andb_prop in H. destruct H as [Ha Hs].
  apply negb_true_iff in Ha. now rewrite Ha, IH.
Qed.

Lemma contains_app_sep c s t : contains c (s ++ String c t) = true.
Proof.
  induction s as [|a s IH]; simpl.
  - now rewrite Ascii.eqb_refl.
  - rewrite IH. apply orb_true_r.
Qed.

Lemma split_none c s :
  forall_chars (fun a => negb (Ascii.eqb a c)) s = true -> split c s = [s].
Proof.
  induction s as [|a s IH]; simpl; [reflexivity|].
  intros H. apply andb_prop in H. destruct H as [Ha Hs].
  apply negb_true_iff in Ha. now rewrite Ha, IH.
Qed.

Lemma split_app_sep c s t :
  forall_chars (fun a => negb (Ascii.eqb a c)) s = true ->
  split c (s ++ String c t) = s :: split c t.
Proof.
  induction s as [|a s IH]; simpl.
  - now rewrite Ascii.eqb_refl.
  - intros H. apply andb_prop in H. destruct H as [Ha Hs].
    apply negb_true_iff in Ha. now rewrite Ha, IH.
Qed.

Lemma string_of_uint_digits d :
  forall_chars is_digit (NilEmpty.string_of_uint d) = true.
Proof. induction d; simpl; auto. Qed.

Lemma digits_of_digit_string a s :
  forall_chars is_digit (String a s) = true ->
  digits (String a s) = NilEmpty.uint_of_string (String a s).
Proof.
  revert a. induction s as [|b s IH]; intros a H; [reflexivity|].
  change (forall_chars is_digit (String a (String b s)))
    with (is_digit a && forall_chars is_digit (String b s)) in H.
  apply andb_prop in H. destruct H as [_ Hs].
  assert (Hb : is_digit b = true) by (simpl in Hs; now apply andb_prop in Hs).
  apply digit_classes in Hb. destruct Hb as (_ & Hb & _).
  change (digits (String a (String b s)))
    with (if Ascii.eqb b "_" then uint_of_char a (digits s)
          else uint_of_char a (digits (String b s))).
  rewrite Hb, (IH b Hs). reflexivity.
Qed.

Lemma digits_string_of_uint d :
  d <> Nil -> digits (NilEmpty.string_of_uint d) = Some d.
Proof.
  intros Hd. pose proof (string_of_uint_digits d) as H.
  pose proof (NilEmpty.usu d) as Hu.
  destruct (NilEmpty.string_of_uint d) as [|a s] eqn:E.
  - destruct d; simpl in E; congruence.
  - now rewrite digits_of_digit_string.
Qed.

Lemma of_int_numeric n : forall_chars is_numeric (of_int n) = true.
Proof.
  assert (Hd : forall d, forall_chars is_numeric (NilZero.string_of_uint d) = true).
  { intros d. destruct d; try reflexivity;
      apply (forall_chars_impl is_digit); try apply string_of_uint_digits;
      intros a Ha; now apply digit_classes in Ha. }
  unfold of_int. destruct (Z.to_int n); simpl; auto.
Qed.

Lemma numeric_no_space s :
  forall_chars is_numeric s = true ->
  forall_chars (fun a => negb (is_space a)) s = true /\
  forall_chars (fun a => negb (is_int_space a)) s = true /\
  forall_chars (fun a => negb (Ascii.eqb a ":")) s = true.
Proof.
  intros H. repeat split; revert H; apply forall_chars_impl;
    intros a Ha; apply numeric_classes in Ha; apply negb_true_iff; tauto.
Qed.

(** [int(str(n)) == n] *)
Lemma int_of_int n : int (of_int n) = Some n.
Proof.
  unfold int.
  rewrite strip_by_none by apply numeric_no_space, of_int_numeric.
  pose proof (DecimalZ.of_to n) as Hn. unfold of_int.
  destruct n as [|p|p]; [reflexivity| |]; cbn [Z.to_int] in *;
    pose proof (DecimalPos.Unsigned.to_uint_nonnil p) as Hp;
    set (d := Pos.to_uint p) in *; cbn [Z.of_int] in Hn;
    cbn [NilZero.string_of_int].
  - assert (E : NilZero.string_of_uint d = NilEmpty.string_of_uint d)
      by now destruct d.
    rewrite E. pose proof (string_of_uint_digits d) as Hdig.
    pose proof (digits_string_of_uint d Hp) as Hds.
    destruct (NilEmpty.string_of_uint d) as [|a s] eqn:Es; [discriminate|].
    assert (Ha : is_digit a = true) by (simpl in Hdig; now apply andb_prop in Hdig).
    apply digit_classes in Ha. destruct Ha as (_ & _ & Hplus & Hminus).
    rewrite Hplus, Hminus, Hds. simpl. now rewrite Hn.
  - assert (E : NilZero.string_of_uint d = NilEmpty.string_of_uint d)
      by now destruct d.
    rewrite E. change (Ascii.eqb "-" "+") with false.
    change (Ascii.eqb "-" "-") with true. cbv iota.
    rewrite (digits_string_of_uint d Hp). simpl. now rewrite Hn.
Qed.

End PyStrFacts.

(** A description printed from two integers stands for them, with or
    without white space after it. *)
Lemma parse_port_pair h c :
  parse_port (PyStr.of_int h ++ ":" ++ PyStr.of_int c) = Some (h, c).
Proof.
  unfold parse_port.
  destruct (PyStrFacts.numeric_no_space _ (PyStrFacts.of_int_numeric h))
    as (Hsh & _ & Hch).
  destruct (PyStrFacts.numeric_no_space _ (PyStrFacts.of_int_numeric c))
    as (Hsc & _ & Hcc).
  change (":" ++ PyStr.of_int c) with (String ":" (PyStr.of_int c)).
  rewrite PyStrFacts.contains_app_sep.
  rewrite PyStrFacts.split_app_sep by exact Hch.
  rewrite PyStrFacts.split_none by exact Hcc.
  cbn [map]. unfold PyStr.strip.
  rewrite !PyStrFacts.strip_by_none by assumption.
  now rewrite !PyStrFacts.int_of_int.
Qed.

Lemma parse_port_single p : parse_port (PyStr.of_int p) = Some (p, p).
Proof.
  unfold parse_port.
  destruct (PyStrFacts.numeric_no_space _ (PyStrFacts.of_int_numeric p))
    as (_ & _ & Hc).
  rewrite PyStrFacts.contains_forall by exact Hc.
  now rewrite PyStrFacts.int_of_int.
Qed.

Lemma parse_port_token_body h c :
  parse_port (PyStr.of_int h ++ ":" ++ PyStr.of_int c ++ " ") = Some (h, c).
Proof.
  unfold parse_port.
  destruct (PyStrFacts.numeric_no_space _ (PyStrFacts.of_int_numeric h))
    as (Hsh & _ & Hch).
  destruct (PyStrFacts.numeric_no_space _ (PyStrFacts.of_int_numeric c))
    as (Hsc & _ & Hcc).
  change (":" ++ PyStr.of_int c ++ " ") with (String ":" (PyStr.of_int c ++ " ")).
  rewrite PyStrFacts.contains_app_sep.
  rewrite PyStrFacts.split_app_sep by exact Hch.
  rewrite PyStrFacts.split_none
    by (rewrite PyStrFacts.forall_chars_app, Hcc; reflexivity).
  cbn [map]. unfold PyStr.strip.
  rewrite PyStrFacts.strip_by_none by assumption.
  rewrite PyStrFacts.strip_by_none_app_char by (assumption || reflexivity).
  now rewrite !PyStrFacts.int_of_int.
Qed.

Lemma publish_token_inj kv kv' : publish_token kv = publish_token kv' -> kv = kv'.
Proof.
  destruct kv as [h c], kv' as [h' c']. unfold publish_token. cbn [fst snd].
  intros H.
  change ("--publish=" ++ PyStr.of_int h ++ ":" ++ PyStr.of_int c ++ " ")
    with ("--publish=" ++ (PyStr.of_int h ++ ":" ++ PyStr.of_int c ++ " ")) in H.
  assert (Hb : PyStr.of_int h ++ ":" ++ PyStr.of_int c ++ " " =
               PyStr.of_int h' ++ ":" ++ PyStr.of_int c' ++ " ").
  { simpl in H. now injection H. }
  pose proof (parse_port_token_body h c) as P.
  rewrite Hb, parse_port_token_body in P. now injection P as -> ->.
Qed.

(** ** The loop of [Add] *)

Ltac run_method :=
  cbv beta iota zeta delta [bind ret raise read write].

Lemma conflicts_false_iff h c used :
  conflicts h c used = false <->
  PyDict.get h used = None \/ PyDict.get h used = Some c.
Proof.
  unfold conflicts. destruct (PyDict.get h used) as [p|]; [|tauto].
  destruct (p =? c) eqn:E; simpl.
  - apply Z.eqb_eq in E. subst. tauto.
  - apply Z.eqb_neq in E. split; [discriminate|].
    intros [H | H]; [discriminate | congruence].
Qed.

Lemma conflicts_true_iff h c used :
  conflicts h c used = true <->
  exists p, PyDict.get h used = Some p /\ p <> c.
Proof.
  unfold conflicts. destruct (PyDict.get h used) as [p|].
  - destruct (p =? c) eqn:E; simpl.
    + apply Z.eqb_eq in E. split; [discriminate|]. intros (q & [= ->] & Hq). contradiction.
    + apply Z.eqb_neq in E. split; [eauto | reflexivity].
  - split; [discriminate | intros (q & H & _); discriminate].
Qed.

(** The three ways a turn of the loop ends. *)
Lemma Add_port_malformed kind port pt self :
  parse_port port = None ->
  Add_port kind port pt self =
  (Raise (IllegalPortConfigurationError (BadPortDescription kind port)), self).
Proof. unfold Add_port. now intros ->. Qed.

Lemma Add_port_conflict kind port pt self h c :
  parse_port port = Some (h, c) ->
  conflicts h c (used_host_ports self) = true ->
  Add_port kind port pt self =
  (Raise (InconsistentPortConfigurationError h), self).
Proof. unfold Add_port. intros -> Hc. run_method. now rewrite Hc. Qed.

Lemma Add_port_legal kind port pt self h c :
  parse_port port = Some (h, c) ->
  conflicts h c (used_host_ports self) = false ->
  legal_pair h c = true ->
  Add_port kind port pt self =
  (Return (PyDict.set h c pt), record_used h c self).
Proof.
  unfold Add_port, legal_pair. intros -> Hc Hl. run_method. rewrite Hc.
  repeat (apply andb_prop in Hl; destruct Hl as [Hl ?]).
  repeat match goal with H : negb _ = true |- _ =>
    apply negb_true_iff in H; rewrite H end.
  reflexivity.
Qed.

Lemma Add_port_illegal kind port pt self h c :
  parse_port port = Some (h, c) ->
  conflicts h c (used_host_ports self) = false ->
  legal_pair h c = false ->
  exists why,
    Add_port kind port pt self =
    (Raise (IllegalPortConfigurationError why), record_used h c self).
Proof.
  unfold Add_port, legal_pair. intros -> Hc Hl. run_method. rewrite Hc.
  destruct (out_of_range h c); [eauto|].
  destruct (c <? 1024); [eauto|].
  destruct (py_in c RESERVED_DOCKER_PORTS); [eauto|].
  destruct (py_in h RESERVED_HOST_PORTS); [eauto|].
  discriminate.
Qed.

Lemma Add_port_Return kind port pt self pt' self' :
  Add_port kind port pt self = (Return pt', self') ->
  exists h c,
    parse_port port = Some (h, c) /\
    conflicts h c (used_host_ports self) = false /\
    legal_pair h c = true /\
    pt' = PyDict.set h c pt /\ self' = record_used h c self.
Proof.
  intros H. destruct (parse_port port) as [[h c]|] eqn:Hp.
  - exists h, c. destruct (conflicts h c (used_host_ports self)) eqn:Hc.
    + rewrite (Add_port_conflict _ _ _ _ _ _ Hp Hc) in H. discriminate.
    + destruct (legal_pair h c) eqn:Hl.
      * rewrite (Add_port_legal _ _ _ _ _ _ Hp Hc Hl) in H.
        injection H as <- <-. auto.
      * destruct (Add_port_illegal kind _ pt _ _ _ Hp Hc Hl) as [why Hw].
        rewrite Hw in H. discriminate.
  - rewrite (Add_port_malformed _ _ _ _ Hp) in H. discriminate.
Qed.

(** A turn of the loop writes to [used_host_ports] only, and there
    it never changes what a host port is recorded with. *)
Lemma Add_port_state kind port pt self o self' :
  Add_port kind port pt self = (o, self') ->
  self' = self \/
  exists h c, parse_port port = Some (h, c) /\
              conflicts h c (used_host_ports self) = false /\
              self' = record_used h c self.
Proof.
  intros H. destruct (parse_port port) as [[h c]|] eqn:Hp.
  - destruct (conflicts h c (used_host_ports self)) eqn:Hc.
    + rewrite (Add_port_conflict _ _ _ _ _ _ Hp Hc) in H. injection H as _ <-. now left.
    + right. exists h, c. repeat split; auto.
      destruct (legal_pair h c) eqn:Hl.
      * rewrite (Add_port_legal _ _ _ _ _ _ Hp Hc Hl) in H. now injection H as _ <-.
      * destruct (Add_port_illegal kind _ pt _ _ _ Hp Hc Hl) as [why Hw].
        rewrite Hw in H. now injection H as _ <-.
  - rewrite (Add_port_malformed _ _ _ _ Hp) in H. injection H as _ <-. now left.
Qed.

Lemma record_used_stable h c self k v :
  conflicts h c (used_host_ports self) = false ->
  PyDict.get k (used_host_ports self) = Some v ->
  PyDict.get k (used_host_ports (record_used h c self)) = Some v.
Proof.
  intros Hc Hk. simpl. destruct (Z.eq_dec h k) as [->|Hne].
  - apply conflicts_false_iff in Hc. destruct Hc as [Hc | Hc]; [congruence|].
    rewrite Hc in Hk. injection Hk as ->. apply PyDictFacts.get_set_same.
  - now rewrite PyDictFacts.get_set_other.
Qed.

Lemma Add_port_frame kind port pt self o self' :
  Add_port kind port pt self = (o, self') ->
  _port_mappings self' = _port_mappings self /\
  container_port self' = container_port self.
Proof.
  intros H. apply Add_port_state in H.
  destruct H as [-> | (h & c & _ & _ & ->)]; auto.
Qed.

Lemma Add_port_used_stable kind port pt self o self' k v :
  Add_port kind port pt self = (o, self') ->
  PyDict.get k (used_host_ports self) = Some v ->
  PyDict.get k (used_host_ports self') = Some v.
Proof.
  intros H Hk. apply Add_port_state in H.
  destruct H as [-> | (h & c & _ & Hc & ->)]; [exact Hk|].
  now apply record_used_stable.
Qed.

Lemma Add_loop_cons kind port ports pt self :
  Add_loop kind (port :: ports) pt self =
  match Add_port kind port pt self with
  | (Return pt', self') => Add_loop kind ports pt' self'
  | (Raise e, self') => (Raise e, self')
  end.
Proof. reflexivity. Qed.

Lemma Add_loop_app kind l1 l2 pt self :
  Add_loop kind (l1 ++ l2) pt self =
  match Add_loop kind l1 pt self with
  | (Return pt', self') => Add_loop kind l2 pt' self'
  | (Raise e, self') => (Raise e, self')
  end.
Proof.
  revert pt self. induction l1 as [|port l1 IH]; intros pt self.
  - reflexivity.
  - rewrite <- app_comm_cons, !Add_loop_cons.
    destruct (Add_port kind port pt self) as [[pt'|e] self']; [apply IH | reflexivity].
Qed.

Lemma Add_loop_frame kind ports pt self o self' :
  Add_loop kind ports pt self = (o, self') ->
  _port_mappings self' = _port_mappings self /\
  container_port self' = container_port self.
Proof.
  revert pt self. induction ports as [|port ports IH]; intros pt self.
  - intros [= _ <-]. auto.
  - rewrite Add_loop_cons.
    destruct (Add_port kind port pt self) as [[pt'|e] s1] eqn:E;
      apply Add_port_frame in E; destruct E as [E1 E2].
    + intros H. apply IH in H. destruct H. split; congruence.
    + intros [= _ <-]. auto.
Qed.

Lemma Add_loop_used_stable kind ports pt self o self' k v :
  Add_loop kind ports pt self = (o, self') ->
  PyDict.get k (used_host_ports self) = Some v ->
  PyDict.get k (used_host_ports self') = Some v.
Proof.
  revert pt self. induction ports as [|port ports IH]; intros pt self.
  - now intros [= _ <-].
  - rewrite Add_loop_cons.
    destruct (Add_port kind port pt self) as [[pt'|e] s1] eqn:E; intros H Hk.
    + eapply IH; [exact H|]. eapply Add_port_used_stable; eauto.
    + injection H as _ <-. eapply Add_port_used_stable; eauto.
Qed.

(** A loop that runs to its end has met legal descriptions only. *)
Lemma Add_loop_Return_legal kind ports pt self pt' self' :
  Add_loop kind ports pt self = (Return pt', self') ->
  Forall (fun port => legal_port port = true) ports.
Proof.
  revert pt self. induction ports as [|port ports IH]; intros pt self.
  - constructor.
  - rewrite Add_loop_cons.
    destruct (Add_port kind port pt self) as [[pt1|e] s1] eqn:E; [|discriminate].
    intros H. constructor; [|eauto].
    apply Add_port_Return in E. destruct E as (h & c & Hp & _ & Hl & _).
    unfold legal_port. now rewrite Hp.
Qed.

Lemma Add_port_translations_ok kind port pt self pt' self' :
  Add_port kind port pt self = (Return pt', self') ->
  translations_ok pt self -> translations_ok pt' self'.
Proof.
  intros H Hok. apply Add_port_Return in H.
  destruct H as (h & c & _ & Hc & Hl & -> & ->).
  intros k v Hin. apply PyDictFacts.In_set in Hin. destruct Hin as [[= -> ->] | Hin].
  - split; [apply PyDictFacts.get_set_same | exact Hl].
  - destruct (Hok _ _ Hin) as [Hu Hlk]. split; [|exact Hlk].
    now apply record_used_stable.
Qed.

Lemma Add_loop_translations_ok kind ports pt self pt' self' :
  Add_loop kind ports pt self = (Return pt', self') ->
  translations_ok pt self -> translations_ok pt' self'.
Proof.
  revert pt self. induction ports as [|port ports IH]; intros pt self.
  - now intros [= <- <-].
  - rewrite Add_loop_cons.
    destruct (Add_port kind port pt self) as [[pt1|e] s1] eqn:E; [|discriminate].
    intros H Hok. eapply IH; [exact H|]. eapply Add_port_translations_ok; eauto.
Qed.

Lemma translations_ok_empty self : translations_ok PyDict.empty self.
Proof. intros k v []. Qed.

(** A description the loop has passed is in [port_translations] and
    in [used_host_ports] when the loop ends. *)
Lemma Add_loop_tracks kind ports pt self pt' self' port h c :
  Add_loop kind ports pt self = (Return pt', self') ->
  In port ports -> parse_port port = Some (h, c) ->
  PyDict.get h (used_host_ports self') = Some c /\
  PyDict.get h pt' = Some c.
Proof.
  revert pt self. induction ports as [|p ports IH]; intros pt self; [intros _ []|].
  rewrite Add_loop_cons.
  destruct (Add_port kind p pt self) as [[pt1|e] s1] eqn:E; [|discriminate].
  intros H [-> | Hin] Hp; [|eauto].
  pose proof E as E'. apply Add_port_Return in E'.
  destruct E' as (h' & c' & Hp' & Hc & Hl & -> & ->).
  rewrite Hp in Hp'. injection Hp' as <- <-.
  assert (Hu : PyDict.get h (used_host_ports (record_used h c self)) = Some c)
    by apply PyDictFacts.get_set_same.
  pose proof (Add_loop_used_stable _ _ _ _ _ _ _ _ H Hu) as Hu'.
  split; [exact Hu'|].
  clear IH E. revert H Hu.
  generalize (record_used h c self) as s1.
  assert (Hg : PyDict.get h (PyDict.set h c pt) = Some c)
    by apply PyDictFacts.get_set_same.
  revert Hg. generalize (PyDict.set h c pt) as pt1. clear Hc.
  induction ports as [|q ports IH]; intros pt1 Hg s1.
  - now intros [= <- <-] _.
  - rewrite Add_loop_cons.
    destruct (Add_port kind q pt1 s1) as [[pt2|e] s2] eqn:E; [|discriminate].
    intros H Hu. pose proof E as E'. apply Add_port_Return in E'.
    destruct E' as (h2 & c2 & _ & Hc2 & _ & -> & ->).
    eapply IH; [| exact H | now apply record_used_stable].
    destruct (Z.eq_dec h2 h) as [->|Hne].
    + apply conflicts_false_iff in Hc2. destruct Hc2 as [Hc2|Hc2]; [congruence|].
      rewrite Hc2 in Hu. injection Hu as ->. apply PyDictFacts.get_set_same.
    + now rewrite PyDictFacts.get_set_other.
Qed.

(** A description that is already in [port_translations] and recorded
    passes again and changes nothing. *)
Lemma Add_port_again kind port pt self h c :
  parse_port port = Some (h, c) -> legal_pair h c = true ->
  PyDict.get h (used_host_ports self) = Some c ->
  PyDict.get h pt = Some c ->
  Add_port kind port pt self = (Return pt, self).
Proof.
  intros Hp Hl Hu Hpt.
  rewrite (Add_port_legal _ _ _ _ _ _ Hp); [| |exact Hl].
  - unfold record_used. rewrite !PyDictFacts.set_noop by assumption.
    now destruct self.
  - apply conflicts_false_iff. now right.
Qed.

(** A description that comes again later in a batch can be left out. *)
Lemma Add_loop_duplicate kind l1 port l2 l3 pt self :
  Add_loop kind (l1 ++ port :: l2 ++ port :: l3) pt self =
  Add_loop kind (l1 ++ port :: l2 ++ l3) pt self.
Proof.
  replace (l1 ++ port :: l2 ++ port :: l3)%list
    with ((l1 ++ port :: l2) ++ port :: l3)%list
    by now rewrite <- app_assoc.
  replace (l1 ++ port :: l2 ++ l3)%list with ((l1 ++ port :: l2) ++ l3)%list
    by now rewrite <- app_assoc.
  rewrite (Add_loop_app kind (l1 ++ port :: l2) (port :: l3)).
  rewrite (Add_loop_app kind (l1 ++ port :: l2) l3).
  destruct (Add_loop kind (l1 ++ port :: l2) pt self) as [[pt1|e] s1] eqn:E;
    [|reflexivity].
  rewrite Add_loop_cons.
  pose proof (Add_loop_Return_legal _ _ _ _ _ _ E) as Hleg.
  rewrite Forall_forall in Hleg.
  assert (Hin : In port (l1 ++ port :: l2)) by (apply in_or_app; right; now left).
  specialize (Hleg _ Hin). unfold legal_port in Hleg.
  destruct (parse_port port) as [[h c]|] eqn:Hp; [|discriminate].
  destruct (Add_loop_tracks _ _ _ _ _ _ _ _ _ E Hin Hp) as [Hu Hpt].
  now rewrite (Add_port_again _ _ _ _ _ _ Hp Hleg Hu Hpt).
Qed.

(** ** [Add] and [GetAllMappedPorts] *)

Lemma Add_eq ports kind self :
  Add ports kind self =
  match Add_loop kind (port_list ports) PyDict.empty self with
  | (Return pt, self') => (Return pt, commit pt self')
  | (Raise e, self') => (Raise e, self')
  end.
Proof.
  unfold Add. run_method.
  now destruct (Add_loop kind (port_list ports) PyDict.empty self) as [[pt|e] s1].
Qed.

Lemma AllMappings_eq self : AllMappings self = _port_mappings self.
Proof.
  unfold AllMappings, GetAllMappedPorts. run_method.
  now destruct (_port_mappings self) eqn:E; simpl; rewrite ?E.
Qed.

Lemma Add_Raise_frame ports kind self e self' :
  Add ports kind self = (Raise e, self') ->
  _port_mappings self' = _port_mappings self /\
  container_port self' = container_port self.
Proof.
  rewrite Add_eq.
  destruct (Add_loop kind (port_list ports) PyDict.empty self) as [[pt|e'] s1] eqn:E;
    [discriminate|].
  intros [= _ <-]. eapply Add_loop_frame; eauto.
Qed.

Lemma Add_used_stable ports kind self o self' k v :
  Add ports kind self = (o, self') ->
  PyDict.get k (used_host_ports self) = Some v ->
  PyDict.get k (used_host_ports self') = Some v.
Proof.
  rewrite Add_eq.
  destruct (Add_loop kind (port_list ports) PyDict.empty self) as [[pt|e'] s1] eqn:E;
    intros [= _ <-] Hk; simpl; eapply Add_loop_used_stable; eauto.
Qed.

(** The loop stops with a conflict at a description whose host port is
    recorded with another container port. *)
Lemma Add_loop_conflict kind l1 port l2 pt self pt1 self1 h c p :
  Add_loop kind l1 pt self = (Return pt1, self1) ->
  parse_port port = Some (h, c) ->
  PyDict.get h (used_host_ports self1) = Some p -> p <> c ->
  Add_loop kind (l1 ++ port :: l2) pt self =
  (Raise (InconsistentPortConfigurationError h), self1).
Proof.
  intros H1 Hp Hu Hne. rewrite Add_loop_app, H1, Add_loop_cons.
  rewrite (Add_port_conflict _ _ _ _ h c Hp); [reflexivity|].
  apply conflicts_true_iff. eauto.
Qed.

Lemma Add_loop_raises_at kind l1 port l2 pt self :
  fails_validation self l1 port ->
  exists e self', Add_loop kind (l1 ++ port :: l2) pt self = (Raise e, self').
Proof.
  intros Hf. rewrite Add_loop_app.
  destruct (Add_loop kind l1 pt self) as [[pt1|e] s1] eqn:E1; [|eauto].
  rewrite Add_loop_cons.
  destruct (Add_port kind port pt1 s1) as [[pt2|e] s2] eqn:E2; [|eauto].
  exfalso. apply Add_port_Return in E2.
  destruct E2 as (h & c & Hp & Hc & Hl & _).
  destruct Hf as [Hf | (h' & c' & p & Hp' & Hne & Hf)].
  - unfold legal_port in Hf. rewrite Hp in Hf. congruence.
  - rewrite Hp in Hp'. injection Hp' as <- <-.
    assert (Hu : PyDict.get h (used_host_ports s1) = Some p).
    { destruct Hf as [Hu | (port' & Hin & Hp')].
      - eapply Add_loop_used_stable; eauto.
      - exact (proj1 (Add_loop_tracks _ _ _ _ _ _ _ _ _ E1 Hin Hp')). }
    apply conflicts_false_iff in Hc. destruct Hc; congruence.
Qed.

(** ** Rendering *)

Lemma append_assoc (a b c : string) : (a ++ b) ++ c = a ++ (b ++ c).
Proof. induction a as [|x a IH]; simpl; [reflexivity | now rewrite IH]. Qed.

Lemma append_empty_r (a : string) : a ++ "" = a.
Proof. induction a as [|x a IH]; simpl; [reflexivity | now rewrite IH]. Qed.

Lemma fold_left_tokens (l : list (Z * Z)) (acc : string) :
  fold_left (fun result kv => result ++ publish_token kv) l acc =
  acc ++ PyStr.join (map publish_token l).
Proof.
  revert acc. induction l as [|kv l IH]; intros acc; simpl.
  - now rewrite append_empty_r.
  - now rewrite IH, append_assoc.
Qed.

Lemma GetAllMappedPorts_eq self :
  GetAllMappedPorts self =
  (Return (if PyDict.is_empty (_port_mappings self)
           then OwnDict PyDict.empty else SelfPortMappings), self).
Proof.
  unfold GetAllMappedPorts. run_method.
  now destruct (PyDict.is_empty (_port_mappings self)).
Qed.

(** The string is made of the tokens of [published_pairs]; the object
    is left as it was when it has no mapping, and with the serving-port
    entry stored in [_port_mappings] when it has one. *)
Lemma BuildDockerPublishArgumentString_eq self :
  _BuildDockerPublishArgumentString self =
  (Return (PyStr.join (map publish_token (published_pairs self))),
   if PyDict.is_empty (_port_mappings self) then self
   else store_port_mapping VM_PORT_FOR_CONTAINER (container_port self) self).
Proof.
  unfold _BuildDockerPublishArgumentString, published_pairs.
  unfold bind at 1. rewrite GetAllMappedPorts_eq.
  destruct (_port_mappings self) as [|kv m] eqn:E; cbn [PyDict.is_empty];
    unfold setitem; run_method; cbn [deref store_port_mapping _port_mappings];
    rewrite ?E, fold_left_tokens; reflexivity.
Qed.

Lemma GetReplicaPoolParameters_state self :
  snd (GetReplicaPoolParameters self) =
  snd (_BuildDockerPublishArgumentString self).
Proof.
  unfold GetReplicaPoolParameters. unfold bind at 1.
  now rewrite BuildDockerPublishArgumentString_eq.
Qed.

Lemma legal_pair_entry_ok h c : legal_pair h c = true -> entry_ok (h, c).
Proof.
  unfold legal_pair, out_of_range, entry_ok, py_in, RESERVED_DOCKER_PORTS,
    RESERVED_HOST_PORTS, DEFAULT_SERVING_PORT. simpl. intros H.
  repeat (apply andb_prop in H; destruct H as [H ?]).
  repeat match goal with
         | H : negb _ = true |- _ => apply negb_true_iff in H
         | H : (_ || _) = false |- _ => apply orb_false_elim in H; destruct H
         end.
  repeat match goal with
         | H : (_ <? _) = false |- _ => apply Z.ltb_ge in H
         | H : (_ >? _) = false |- _ => rewrite Z.gtb_ltb in H; apply Z.ltb_ge in H
         | H : (_ =? _) = false |- _ => apply Z.eqb_neq in H
         end.
  repeat split; try lia; intros Hin; repeat (destruct Hin as [Hin|Hin]; [lia|]);
    exact Hin.
Qed.

Lemma legal_pair_not_serving_port h c :
  legal_pair h c = true -> h <> VM_PORT_FOR_CONTAINER.
Proof.
  intros H. apply legal_pair_entry_ok in H.
  destruct H as (_ & _ & _ & _ & H). intros ->. apply H. simpl. auto.
Qed.

(** ** Sequences of calls *)

Lemma run_call_tracked h c self call :
  h <> VM_PORT_FOR_CONTAINER ->
  tracked h c self -> tracked h c (run_call self call).
Proof.
  intros Hne [Hu Hm]. destruct call as [ports kind| | |]; cbn [run_call].
  - destruct (Add ports kind self) as [o self'] eqn:HA. cbn [snd].
    split; [eapply Add_used_stable; eauto|].
    rewrite Add_eq in HA.
    destruct (Add_loop kind (port_list ports) PyDict.empty self)
      as [[pt|e] s1] eqn:E; injection HA as _ <-.
    + pose proof (Add_loop_frame _ _ _ _ _ _ E) as [Hf _].
      pose proof (Add_loop_used_stable _ _ _ _ _ _ _ _ E Hu) as Hu1.
      pose proof (Add_loop_translations_ok _ _ _ _ _ _ E
                    (translations_ok_empty self)) as Hok.
      cbn [commit _port_mappings]. rewrite Hf.
      apply PyDictFacts.get_update_agree; [exact Hm|].
      intros v Hv. destruct (Hok _ _ Hv) as [Hv' _]. congruence.
    + pose proof (Add_loop_frame _ _ _ _ _ _ E) as [Hf _]. congruence.
  - rewrite GetAllMappedPorts_eq. now split.
  - rewrite BuildDockerPublishArgumentString_eq. cbn [snd].
    destruct (PyDict.is_empty (_port_mappings self)); [now split|].
    split; [exact Hu|]. cbn [store_port_mapping _port_mappings].
    rewrite PyDictFacts.get_set_other by congruence. exact Hm.
  - rewrite GetReplicaPoolParameters_state, BuildDockerPublishArgumentString_eq.
    cbn [snd].
    destruct (PyDict.is_empty (_port_mappings self)); [now split|].
    split; [exact Hu|]. cbn [store_port_mapping _port_mappings].
    rewrite PyDictFacts.get_set_other by congruence. exact Hm.
Qed.

Lemma run_calls_tracked h c calls self :
  h <> VM_PORT_FOR_CONTAINER ->
  tracked h c self -> tracked h c (run_calls calls self).
Proof.
  intros Hne. unfold run_calls. revert self.
  induction calls as [|call calls IH]; intros self Ht; [exact Ht|].
  simpl. apply IH. now apply run_call_tracked.
Qed.

(** No call changes what a host port is recorded with. *)
Lemma run_call_used_stable self call k v :
  PyDict.get k (used_host_ports self) = Some v ->
  PyDict.get k (used_host_ports (run_call self call)) = Some v.
Proof.
  intros Hu. destruct call as [ports kind| | |]; cbn [run_call].
  - destruct (Add ports kind self) as [o self'] eqn:HA.
    eapply Add_used_stable; eauto.
  - now rewrite GetAllMappedPorts_eq.
  - rewrite BuildDockerPublishArgumentString_eq. cbn [snd].
    now destruct (PyDict.is_empty (_port_mappings self)).
  - rewrite GetReplicaPoolParameters_state, BuildDockerPublishArgumentString_eq.
    cbn [snd]. now destruct (PyDict.is_empty (_port_mappings self)).
Qed.

Lemma run_calls_used_stable calls self k v :
  PyDict.get k (used_host_ports self) = Some v ->
  PyDict.get k (used_host_ports (run_calls calls self)) = Some v.
Proof.
  unfold run_calls. revert self.
  induction calls as [|call calls IH]; intros self Hu; [exact Hu|].
  simpl. apply IH. now apply run_call_used_stable.
Qed.

(** An accepted batch leaves each of its descriptions tracked. *)
Lemma Add_Return_tracked ports kind self pt self' port h c :
  Add ports kind self = (Return pt, self') ->
  In port (port_list ports) -> parse_port port = Some (h, c) ->
  tracked h c self' /\ legal_pair h c = true.
Proof.
  rewrite Add_eq.
  destruct (Add_loop kind (port_list ports) PyDict.empty self)
    as [[pt1|e] s1] eqn:E; [|discriminate].
  intros [= <- <-] Hin Hp.
  destruct (Add_loop_tracks _ _ _ _ _ _ _ _ _ E Hin Hp) as [Hu Hpt].
  apply PyDictFacts.get_In in Hpt.
  pose proof (Add_loop_translations_ok _ _ _ _ _ _ E
                (translations_ok_empty self)) as Hok.
  split; [split; [exact Hu|] | now apply (Hok _ _ Hpt)].
  cbn [commit _port_mappings].
  apply PyDictFacts.get_update_In; [exact Hpt|].
  intros v Hv. destruct (Hok _ _ Hv) as [Hv' _]. simpl in Hu. congruence.
Qed.

(** ** The entries of the mapping *)

(** Whatever the calls, an entry of the mapping satisfies the invariant
    or is the serving-port entry that a rendering call has stored. *)
Lemma run_call_entries p self call :
  container_port self = p ->
  (forall kv, In kv (_port_mappings self) ->
              entry_ok kv \/ kv = (VM_PORT_FOR_CONTAINER, p)) ->
  container_port (run_call self call) = p /\
  (forall kv, In kv (_port_mappings (run_call self call)) ->
              entry_ok kv \/ kv = (VM_PORT_FOR_CONTAINER, p)).
Proof.
  intros Hp Hm.
  assert (Hbuild :
    container_port (snd (_BuildDockerPublishArgumentString self)) = p /\
    (forall kv,
        In kv (_port_mappings (snd (_BuildDockerPublishArgumentString self))) ->
        entry_ok kv \/ kv = (VM_PORT_FOR_CONTAINER, p))).
  { rewrite BuildDockerPublishArgumentString_eq. cbn [snd].
    destruct (PyDict.is_empty (_port_mappings self)); [now split|].
    split; [exact Hp|]. cbn [store_port_mapping _port_mappings].
    intros kv Hin. apply PyDictFacts.In_set in Hin.
    destruct Hin as [-> | Hin]; [right; now rewrite Hp | now apply Hm]. }
  destruct call as [ports kind| | |]; cbn [run_call].
  - destruct (Add ports kind self) as [o self'] eqn:HA. cbn [snd].
    rewrite Add_eq in HA.
    destruct (Add_loop kind (port_list ports) PyDict.empty self)
      as [[pt|e] s1] eqn:E; injection HA as _ <-;
      pose proof (Add_loop_frame _ _ _ _ _ _ E) as [Hf Hc].
    + cbn [commit _port_mappings container_port]. split; [congruence|].
      intros kv Hin. apply PyDictFacts.In_update in Hin.
      destruct Hin as [Hin | Hin]; [rewrite Hf in Hin; now apply Hm|].
      left. destruct kv as [k v].
      apply legal_pair_entry_ok.
      now apply (Add_loop_translations_ok _ _ _ _ _ _ E
                   (translations_ok_empty self) k v).
    + split; [congruence|]. now rewrite Hf.
  - rewrite GetAllMappedPorts_eq. now split.
  - exact Hbuild.
  - now rewrite GetReplicaPoolParameters_state.
Qed.

Lemma run_calls_entries p calls kv :
  In kv (AllMappings (run_calls calls (__init__ p))) ->
  entry_ok kv \/ kv = (VM_PORT_FOR_CONTAINER, p).
Proof.
  rewrite AllMappings_eq. unfold run_calls.
  assert (H : container_port (__init__ p) = p /\
              (forall kv, In kv (_port_mappings (__init__ p)) ->
                          entry_ok kv \/ kv = (VM_PORT_FOR_CONTAINER, p)))
    by (split; [reflexivity | intros ? []]).
  revert H. generalize (__init__ p) as self. revert kv.
  induction calls as [|call calls IH]; intros kv self [Hp Hm]; simpl.
  - apply Hm.
  - apply IH. now apply run_call_entries.
Qed.

(** The mapping of an object that calls have made from a new one
    holds each host port once. *)
Lemma run_calls_wf p calls :
  PyDict.wf (_port_mappings (run_calls calls (__init__ p))).
Proof.
  unfold run_calls.
  assert (H : PyDict.wf (_port_mappings (__init__ p)))
    by apply PyDictFacts.wf_empty.
  revert H. generalize (__init__ p) as self.
  induction calls as [|call calls IH]; intros self Hwf; simpl; [exact Hwf|].
  apply IH.
  assert (Hbuild :
    PyDict.wf (_port_mappings (snd (_BuildDockerPublishArgumentString self)))).
  { rewrite BuildDockerPublishArgumentString_eq. cbn [snd].
    destruct (PyDict.is_empty (_port_mappings self)); [exact Hwf|].
    now apply PyDictFacts.wf_set. }
  destruct call as [ports kind| | |]; cbn [run_call].
  - destruct (Add ports kind self) as [o self'] eqn:HA. cbn [snd].
    rewrite Add_eq in HA.
    destruct (Add_loop kind (port_list ports) PyDict.empty self)
      as [[pt|e] s1] eqn:E; injection HA as _ <-;
      pose proof (Add_loop_frame _ _ _ _ _ _ E) as [Hf _].
    + cbn [commit _port_mappings]. rewrite Hf. now apply PyDictFacts.wf_update.
    + now rewrite Hf.
  - now rewrite GetAllMappedPorts_eq.
  - exact Hbuild.
  - now rewrite GetReplicaPoolParameters_state.
Qed.

(** ** The publish string *)

Lemma published_pairs_wf self :
  PyDict.wf (_port_mappings self) -> PyDict.wf (published_pairs self).
Proof. apply PyDictFacts.wf_set. Qed.

Lemma In_published_pairs self h c :
  PyDict.wf (_port_mappings self) ->
  In (h, c) (published_pairs self) <->
  (h = VM_PORT_FOR_CONTAINER /\ c = container_port self) \/
  (h <> VM_PORT_FOR_CONTAINER /\ In (h, c) (_port_mappings self)).
Proof. apply PyDictFacts.In_set_iff. Qed.

(** * The claims of the specification *)

(** C1 fails on the code for an object that has a mapping:
    [GetAllMappedPorts] then returns [self._port_mappings] itself, and
    the assignment of the serving port in
    [_BuildDockerPublishArgumentString] writes into it.  After either
    rendering call the mapping has the entry for the serving port.  An
    object with no mapping is left as it was. *)
Theorem rendering_stores_serving_port_in_mapping :
  Add (PortsList ["8000:8000"]) "forwarded" (__init__ 8080) =
  (Return [(8000, 8000)],
   {| used_host_ports := [(8000, 8000)];
      _port_mappings := [(8000, 8000)];
      container_port := 8080 |}) /\
  AllMappings {| used_host_ports := [(8000, 8000)];
                 _port_mappings := [(8000, 8000)];
                 container_port := 8080 |} = [(8000, 8000)] /\
  AllMappings
    (snd (_BuildDockerPublishArgumentString
            {| used_host_ports := [(8000, 8000)];
               _port_mappings := [(8000, 8000)];
               container_port := 8080 |})) = [(8000, 8000); (8080, 8080)] /\
  AllMappings
    (snd (GetReplicaPoolParameters
            {| used_host_ports := [(8000, 8000)];
               _port_mappings := [(8000, 8000)];
               container_port := 8080 |})) = [(8000, 8000); (8080, 8080)] /\
  forall p,
    snd (_BuildDockerPublishArgumentString (__init__ p)) = __init__ p /\
    snd (GetReplicaPoolParameters (__init__ p)) = __init__ p.
Proof.
  do 4 (split; [reflexivity|]).
  intros p. rewrite GetReplicaPoolParameters_state.
  rewrite BuildDockerPublishArgumentString_eq. now split.
Qed.

(** C2: a batch in which a description fails validation makes [Add]
    raise, and the mapping that [GetAllMappedPorts] gives afterwards is
    the one it gave before: nothing of the batch is committed. *)
Theorem Add_failed_batch_commits_nothing ports kind self l1 port l2 :
  port_list ports = (l1 ++ port :: l2)%list ->
  fails_validation self l1 port ->
  exists e self',
    Add ports kind self = (Raise e, self') /\
    AllMappings self' = AllMappings self.
Proof.
  intros Hl Hf.
  destruct (Add_loop_raises_at kind l1 port l2 PyDict.empty self Hf)
    as (e & self' & He).
  assert (HA : Add ports kind self = (Raise e, self'))
    by now rewrite Add_eq, Hl, He.
  exists e, self'. split; [exact HA|].
  rewrite !AllMappings_eq. now apply Add_Raise_frame in HA.
Qed.

Lemma Add_failed_batch_commits_nothing_witness :
  exists e self',
    Add (PortsList ["8000:8000"; "22:22"]) "forwarded"
        (__init__ DEFAULT_CONTAINER_PORT) = (Raise e, self') /\
    AllMappings self' = AllMappings (__init__ DEFAULT_CONTAINER_PORT).
Proof.
  apply (Add_failed_batch_commits_nothing
           (PortsList ["8000:8000"; "22:22"]) "forwarded"
           (__init__ DEFAULT_CONTAINER_PORT) ["8000:8000"] "22:22" []).
  - reflexivity.
  - left. vm_compute. reflexivity.
Defined.

(** C3, as the spec states it, fails on the code: a description of a
    port outside [1, 65535] is recorded in [used_host_ports] before its
    range is checked, so [Add] raises and yet has changed the object;
    and once the host port is recorded, a description of it with
    another container port raises the conflict error and not the
    illegal-configuration error. *)
Lemma Add_out_of_range_records_host_port :
  malformed_or_out_of_range "70000" = true /\
  malformed_or_out_of_range "70000:8000" = true /\
  exists self',
    Add (PortsList ["70000"]) "forwarded" (__init__ DEFAULT_CONTAINER_PORT) =
    (Raise (IllegalPortConfigurationError (InvalidPort "forwarded" "70000")),
     self') /\
    used_host_ports self' = [(70000, 70000)] /\
    self' <> __init__ DEFAULT_CONTAINER_PORT /\
    Add (PortsList ["70000:8000"]) "forwarded" self' =
    (Raise (InconsistentPortConfigurationError 70000), self').
Proof.
  split; [reflexivity|]. split; [reflexivity|].
  eexists. split; [reflexivity|]. split; [reflexivity|].
  split; [discriminate | reflexivity].
Qed.

(** C3, amended: when the loop of [Add] comes to a description that is
    malformed or out of range, [Add] raises and commits nothing.  A
    malformed description raises the illegal-configuration error and
    changes nothing.  A description with a port out of range raises the
    illegal-configuration error and leaves its host port recorded in
    [used_host_ports], unless that host port is already recorded with
    another container port: then the conflict error is raised and
    nothing is changed. *)
Theorem Add_malformed_or_out_of_range ports kind self l1 port l2 pt1 self1 :
  port_list ports = (l1 ++ port :: l2)%list ->
  Add_loop kind l1 PyDict.empty self = (Return pt1, self1) ->
  malformed_or_out_of_range port = true ->
  exists e self',
    Add ports kind self = (Raise e, self') /\
    AllMappings self' = AllMappings self /\
    _port_mappings self' = _port_mappings self1 /\
    container_port self' = container_port self1 /\
    match parse_port port with
    | None =>
        e = IllegalPortConfigurationError (BadPortDescription kind port) /\
        self' = self1
    | Some (h, c) =>
        if conflicts h c (used_host_ports self1) then
          e = InconsistentPortConfigurationError h /\ self' = self1
        else
          e = IllegalPortConfigurationError (InvalidPort kind port) /\
          used_host_ports self' = PyDict.set h c (used_host_ports self1)
    end.
Proof.
  unfold malformed_or_out_of_range. intros Hl H1 Hm.
  pose proof (Add_loop_frame _ _ _ _ _ _ H1) as [Hf _].
  rewrite Add_eq, Hl, Add_loop_app, H1, Add_loop_cons.
  destruct (parse_port port) as [[h c]|] eqn:Hp.
  - destruct (conflicts h c (used_host_ports self1)) eqn:Hc.
    + rewrite (Add_port_conflict _ _ _ _ _ _ Hp Hc).
      eexists _, _. split; [reflexivity|]. rewrite !AllMappings_eq. auto.
    + unfold Add_port. rewrite Hp. run_method. rewrite Hc, Hm.
      eexists _, _. split; [reflexivity|]. rewrite !AllMappings_eq. auto.
  - rewrite (Add_port_malformed _ _ _ _ Hp).
    eexists _, _. split; [reflexivity|]. rewrite !AllMappings_eq. auto.
Qed.

Lemma Add_malformed_or_out_of_range_witness :
  exists e self',
    Add (PortsList ["9000"; "0:8000"; "9001"]) "forwarded" (__init__ 8080) =
    (Raise e, self') /\
    AllMappings self' = AllMappings (__init__ 8080) /\
    _port_mappings self' = [] /\
    container_port self' = 8080 /\
    e = IllegalPortConfigurationError (InvalidPort "forwarded" "0:8000") /\
    used_host_ports self' = [(9000, 9000); (0, 8000)].
Proof.
  apply (Add_malformed_or_out_of_range
           (PortsList ["9000"; "0:8000"; "9001"]) "forwarded" (__init__ 8080)
           ["9000"] "0:8000" ["9001"] [(9000, 9000)]
           {| used_host_ports := [(9000, 9000)];
              _port_mappings := [];
              container_port := 8080 |}).
  - reflexivity.
  - reflexivity.
  - reflexivity.
Defined.

(** C4, as the spec states it, fails on the code where the two
    descriptions are in one batch: that batch is rejected as a whole,
    so afterwards the mapping does not map [h] to [c1]. *)
Lemma conflict_in_one_batch_commits_nothing :
  parse_port "8000:8001" = Some (8000, 8001) /\
  parse_port "8000:8002" = Some (8000, 8002) /\
  legal_port "8000:8001" = true /\ legal_port "8000:8002" = true /\
  exists self',
    Add (PortsList ["8000:8001"; "8000:8002"]) "forwarded" (__init__ 8080) =
    (Raise (InconsistentPortConfigurationError 8000), self') /\
    AllMappings self' = [] /\
    PyDict.get 8000 (AllMappings self') <> Some 8001.
Proof.
  repeat (split; [reflexivity|]).
  eexists. split; [reflexivity|]. split; [reflexivity | discriminate].
Qed.

(** C4, amended: let [port1] stand for [h:c1] and [port2] for [h:c2],
    with [c1 <> c2].  When [port1] is in an accepted batch, a later
    batch whose loop comes to [port2], after any calls in between,
    raises the conflict error and the mapping still maps [h] to [c1].
    When [port1] comes before [port2] in one batch whose loop comes to
    [port2], [Add] raises the conflict error and the mapping is the one
    from before that batch. *)
Theorem conflicting_container_port_rejected h c1 c2 port1 port2 :
  parse_port port1 = Some (h, c1) ->
  parse_port port2 = Some (h, c2) ->
  c1 <> c2 ->
  (forall self0 ports1 kind1 pt1 self1 calls ports2 kind2 l1 l2 pt2 self2,
      Add ports1 kind1 self0 = (Return pt1, self1) ->
      In port1 (port_list ports1) ->
      port_list ports2 = (l1 ++ port2 :: l2)%list ->
      Add_loop kind2 l1 PyDict.empty (run_calls calls self1) =
      (Return pt2, self2) ->
      Add ports2 kind2 (run_calls calls self1) =
      (Raise (InconsistentPortConfigurationError h), self2) /\
      PyDict.get h (AllMappings self2) = Some c1) /\
  (forall self ports kind l1 l2 pt1 self1,
      port_list ports = (l1 ++ port2 :: l2)%list ->
      In port1 l1 ->
      Add_loop kind l1 PyDict.empty self = (Return pt1, self1) ->
      Add ports kind self =
      (Raise (InconsistentPortConfigurationError h), self1) /\
      AllMappings self1 = AllMappings self).
Proof.
  intros Hp1 Hp2 Hne. split.
  - intros self0 ports1 kind1 pt1 self1 calls ports2 kind2 l1 l2 pt2 self2
      HA Hin Hl H1.
    destruct (Add_Return_tracked _ _ _ _ _ _ _ _ HA Hin Hp1) as [Ht Hleg].
    apply legal_pair_not_serving_port in Hleg.
    apply (run_calls_tracked h c1 calls) in Ht; [|exact Hleg].
    destruct Ht as [Hu Hm].
    pose proof (Add_loop_used_stable _ _ _ _ _ _ _ _ H1 Hu) as Hu2.
    pose proof (Add_loop_frame _ _ _ _ _ _ H1) as [Hf _].
    split.
    + rewrite Add_eq, Hl.
      now rewrite (Add_loop_conflict _ _ _ _ _ _ _ _ _ _ _ H1 Hp2 Hu2 Hne).
    + rewrite AllMappings_eq. congruence.
  - intros self ports kind l1 l2 pt1 self1 Hl Hin H1.
    destruct (Add_loop_tracks _ _ _ _ _ _ _ _ _ H1 Hin Hp1) as [Hu _].
    pose proof (Add_loop_frame _ _ _ _ _ _ H1) as [Hf _].
    split.
    + rewrite Add_eq, Hl.
      now rewrite (Add_loop_conflict _ _ _ _ _ _ _ _ _ _ _ H1 Hp2 Hu Hne).
    + now rewrite !AllMappings_eq.
Qed.

Lemma conflicting_container_port_rejected_witness :
  (Add (PortsList ["9000"; "8000:8002"]) "forwarded"
       (run_calls [CallBuildDockerPublishArgumentString]
          {| used_host_ports := [(8000, 8001)];
             _port_mappings := [(8000, 8001)];
             container_port := 8080 |}) =
   (Raise (InconsistentPortConfigurationError 8000),
    {| used_host_ports := [(8000, 8001); (9000, 9000)];
       _port_mappings := [(8000, 8001); (8080, 8080)];
       container_port := 8080 |}) /\
   PyDict.get 8000
     (AllMappings {| used_host_ports := [(8000, 8001); (9000, 9000)];
                     _port_mappings := [(8000, 8001); (8080, 8080)];
                     container_port := 8080 |}) = Some 8001) /\
  (Add (PortsList ["8000:8001"; "8000:8002"]) "forwarded" (__init__ 8080) =
   (Raise (InconsistentPortConfigurationError 8000),
    {| used_host_ports := [(8000, 8001)];
       _port_mappings := [];
       container_port := 8080 |}) /\
   AllMappings {| used_host_ports := [(8000, 8001)];
                  _port_mappings := [];
                  container_port := 8080 |} = AllMappings (__init__ 8080)).
Proof.
  destruct (conflicting_container_port_rejected 8000 8001 8002
              "8000:8001" "8000:8002" eq_refl eq_refl) as [Hlater Hsame].
  - discriminate.
  - split.
    + apply (Hlater (__init__ 8080) (PortsList ["8000:8001"]) "forwarded"
               [(8000, 8001)]
               {| used_host_ports := [(8000, 8001)];
                  _port_mappings := [(8000, 8001)];
                  container_port := 8080 |}
               [CallBuildDockerPublishArgumentString]
               (PortsList ["9000"; "8000:8002"]) "forwarded"
               ["9000"] [] [(9000, 9000)]).
      * reflexivity.
      * simpl. auto.
      * reflexivity.
      * reflexivity.
    + apply (Hsame (__init__ 8080) (PortsList ["8000:8001"; "8000:8002"])
               "forwarded" ["8000:8001"] [] [(8000, 8001)]).
      * reflexivity.
      * simpl. auto.
      * reflexivity.
Defined.

(** C5: a description of an accepted batch is accepted again.  Added
    in a batch of its own, after any calls, [Add] returns and leaves the
    object as it is, with the host port still mapped to the container
    port.  Added once more later in the same batch, it makes no
    difference to what [Add] returns and leaves behind. *)
Theorem Add_same_port_twice ports kind self pt self1 port :
  Add ports kind self = (Return pt, self1) ->
  In port (port_list ports) ->
  (forall calls kind',
      exists h c,
        parse_port port = Some (h, c) /\
        Add (PortsList [port]) kind' (run_calls calls self1) =
        (Return [(h, c)], run_calls calls self1) /\
        PyDict.get h (AllMappings (run_calls calls self1)) = Some c) /\
  (forall l1 l2 l3,
      port_list ports = (l1 ++ port :: l2 ++ l3)%list ->
      Add (PortsList (l1 ++ port :: l2 ++ port :: l3)) kind self =
      (Return pt, self1)).
Proof.
  intros HA Hin. split.
  - intros calls kind'.
    destruct (parse_port port) as [[h c]|] eqn:Hp.
    + exists h, c. split; [reflexivity|].
      destruct (Add_Return_tracked _ _ _ _ _ _ _ _ HA Hin Hp) as [Ht Hleg].
      apply (run_calls_tracked h c calls) in Ht;
        [|now apply legal_pair_not_serving_port in Hleg].
      destruct Ht as [Hu Hm]. rewrite AllMappings_eq. split; [|exact Hm].
      rewrite Add_eq. cbn [port_list]. rewrite Add_loop_cons.
      rewrite (Add_port_legal _ _ _ _ _ _ Hp); [|apply conflicts_false_iff; now right|exact Hleg].
      cbn [Add_loop]. unfold ret, commit, record_used, PyDict.update.
      cbn [PyDict.set PyDict.empty fold_left fst snd used_host_ports
           _port_mappings container_port].
      rewrite !PyDictFacts.set_noop by assumption.
      now destruct (run_calls calls self1).
    + exfalso. rewrite Add_eq in HA.
      destruct (Add_loop kind (port_list ports) PyDict.empty self)
        as [[pt1|e] s1] eqn:E; [|discriminate].
      apply Add_loop_Return_legal in E. rewrite Forall_forall in E.
      specialize (E _ Hin). unfold legal_port in E. now rewrite Hp in E.
  - intros l1 l2 l3 Hl. rewrite <- HA, !Add_eq. cbn [port_list].
    now rewrite Add_loop_duplicate, Hl.
Qed.

Lemma Add_same_port_twice_witness :
  Add (PortsList ["8000:9000"]) "forwarded"
      {| used_host_ports := [(8000, 9000)];
         _port_mappings := [(8000, 9000)];
         container_port := 8080 |} =
  (Return [(8000, 9000)],
   {| used_host_ports := [(8000, 9000)];
      _port_mappings := [(8000, 9000)];
      container_port := 8080 |}) /\
  Add (PortsList ["8000:9000"; "8000:9000"]) "forwarded" (__init__ 8080) =
  (Return [(8000, 9000)],
   {| used_host_ports := [(8000, 9000)];
      _port_mappings := [(8000, 9000)];
      container_port := 8080 |}).
Proof.
  destruct (Add_same_port_twice (PortsList ["8000:9000"]) "forwarded"
              (__init__ 8080) [(8000, 9000)]
              {| used_host_ports := [(8000, 9000)];
                 _port_mappings := [(8000, 9000)];
                 container_port := 8080 |} "8000:9000" eq_refl
              (or_introl eq_refl)) as [Hagain Hsame].
  split.
  - destruct (Hagain [] "forwarded") as (h & c & Hp & HA & _).
    injection Hp as <- <-. exact HA.
  - exact (Hsame [] [] [] eq_refl).
Defined.

(** C6 fails on the code once a rendering call follows an accepted
    batch: the call stores the entry for the serving port, a reserved
    host port, in the mapping, with the container port the object was
    made with, which may be privileged. *)
Theorem rendering_breaks_mapping_invariant :
  AllMappings
    (run_calls [CallAdd (PortsList ["8000:8000"]) "forwarded";
                CallBuildDockerPublishArgumentString] (__init__ 8080)) =
  [(8000, 8000); (8080, 8080)] /\
  In 8080 RESERVED_HOST_PORTS /\
  ~ entry_ok (8080, 8080) /\
  AllMappings
    (run_calls [CallAdd (PortsList ["8000:8000"]) "forwarded";
                CallGetReplicaPoolParameters] (__init__ 80)) =
  [(8000, 8000); (8080, 80)] /\
  ~ entry_ok (8080, 80).
Proof.
  split; [reflexivity|]. split; [simpl; auto|].
  split; [|split; [reflexivity|]].
  - intros (_ & _ & _ & _ & H). apply H. simpl. auto.
  - intros (_ & _ & H & _). simpl in H. lia.
Qed.

(** C7: the serving-port entry takes precedence.  Whatever the mapping
    of the object holds, at the host port of the serving port or at
    others, the string is made of the tokens of pairs among which
    there is [(8080, p)], with [p] the container port of the object,
    there is no [(8080, v)] for another [v], and there is every entry
    of the mapping at another host port.  This holds for the objects
    that calls make from a new one, whose mapping never has another
    value at 8080 since [Add] rejects that host port as reserved, and
    as well for an object whose mapping was given one. *)
Theorem serving_port_entry_wins self v :
  PyDict.wf (_port_mappings self) ->
  v <> container_port self ->
  exists pairs self',
    _BuildDockerPublishArgumentString self =
    (Return (PyStr.join (map publish_token pairs)), self') /\
    In (VM_PORT_FOR_CONTAINER, container_port self) pairs /\
    ~ In (VM_PORT_FOR_CONTAINER, v) pairs /\
    In (publish_token (VM_PORT_FOR_CONTAINER, container_port self))
       (map publish_token pairs) /\
    ~ In (publish_token (VM_PORT_FOR_CONTAINER, v)) (map publish_token pairs) /\
    forall h c, h <> VM_PORT_FOR_CONTAINER ->
                In (h, c) (_port_mappings self) ->
                In (h, c) pairs /\
                In (publish_token (h, c)) (map publish_token pairs).
Proof.
  intros Hwf Hne.
  exists (published_pairs self). eexists.
  split; [apply BuildDockerPublishArgumentString_eq|].
  assert (H1 : In (VM_PORT_FOR_CONTAINER, container_port self)
                  (published_pairs self))
    by (apply In_published_pairs; auto).
  assert (H2 : ~ In (VM_PORT_FOR_CONTAINER, v) (published_pairs self)).
  { intros Hin. apply In_published_pairs in Hin; [|exact Hwf].
    destruct Hin as [[_ Hv] | [Hk _]]; congruence. }
  split; [exact H1|]. split; [exact H2|].
  split; [now apply in_map|]. split.
  - intros Hin. apply in_map_iff in Hin. destruct Hin as (kv & Heq & Hin).
    apply publish_token_inj in Heq. now subst kv.
  - intros h c Hh Hin.
    assert (In (h, c) (published_pairs self))
      by (apply In_published_pairs; auto).
    split; [assumption | now apply in_map].
Qed.

Lemma serving_port_entry_wins_witness :
  Add (PortsList ["8080:9090"]) "forwarded"
      (run_calls [CallAdd (PortsList ["8000:9000"]) "forwarded"]
                 (__init__ 8080)) =
  (Raise (IllegalPortConfigurationError (ReservedHostPort 8080)),
   run_calls [CallAdd (PortsList ["8000:9000"]) "forwarded";
              CallAdd (PortsList ["8080:9090"]) "forwarded"]
             (__init__ 8080)) /\
  exists pairs self',
    _BuildDockerPublishArgumentString
      (run_calls [CallAdd (PortsList ["8000:9000"]) "forwarded";
                  CallAdd (PortsList ["8080:9090"]) "forwarded"]
                 (__init__ 8080)) =
    (Return (PyStr.join (map publish_token pairs)), self') /\
    In (8080, 8080) pairs /\
    ~ In (8080, 9090) pairs /\
    In (publish_token (8080, 8080)) (map publish_token pairs) /\
    ~ In (publish_token (8080, 9090)) (map publish_token pairs) /\
    forall h c, h <> 8080 ->
                In (h, c)
                   (_port_mappings
                      (run_calls
                         [CallAdd (PortsList ["8000:9000"]) "forwarded";
                          CallAdd (PortsList ["8080:9090"]) "forwarded"]
                         (__init__ 8080))) ->
                In (h, c) pairs /\
                In (publish_token (h, c)) (map publish_token pairs).
Proof.
  split; [reflexivity|].
  apply (serving_port_entry_wins
           (run_calls [CallAdd (PortsList ["8000:9000"]) "forwarded";
                       CallAdd (PortsList ["8080:9090"]) "forwarded"]
                      (__init__ 8080)) 9090).
  - unfold PyDict.wf. vm_compute. repeat constructor. intros [].
  - vm_compute. discriminate.
Defined.

(** C8: the string is the tokens, each with its space after it, of the
    published pairs, one token a pair; the pairs have distinct host
    ports and are the serving-port entry and the entries of the mapping
    at the other host ports.  For a new object the string is the one
    token of the serving-port entry. *)
Theorem publish_string_tokens self :
  PyDict.wf (_port_mappings self) ->
  (exists self',
      _BuildDockerPublishArgumentString self =
      (Return (PyStr.join (map publish_token (published_pairs self))), self')) /\
  (forall kv, publish_token kv =
              "--publish=" ++ PyStr.of_int (fst kv) ++ ":" ++
              PyStr.of_int (snd kv) ++ " ") /\
  NoDup (map fst (published_pairs self)) /\
  NoDup (map publish_token (published_pairs self)) /\
  (forall h c,
      In (h, c) (published_pairs self) <->
      (h = VM_PORT_FOR_CONTAINER /\ c = container_port self) \/
      (h <> VM_PORT_FOR_CONTAINER /\ In (h, c) (_port_mappings self))) /\
  (forall p,
      _BuildDockerPublishArgumentString (__init__ p) =
      (Return (publish_token (VM_PORT_FOR_CONTAINER, p)), __init__ p) /\
      published_pairs (__init__ p) = [(VM_PORT_FOR_CONTAINER, p)]).
Proof.
  intros Hwf. split; [|split; [|split; [|split; [|split]]]].
  - eexists. apply BuildDockerPublishArgumentString_eq.
  - reflexivity.
  - now apply published_pairs_wf.
  - apply published_pairs_wf in Hwf. unfold PyDict.wf, PyDict.keys in Hwf.
    apply NoDup_map_inv in Hwf.
    revert Hwf. generalize (published_pairs self) as l.
    induction l as [|kv l IH]; simpl; intros Hnd; [constructor|].
    inversion Hnd as [|? ? Hkv Hl]; subst. constructor; [|auto].
    intros Hin. apply in_map_iff in Hin. destruct Hin as (kv' & Heq & Hin).
    apply publish_token_inj in Heq. now subst kv'.
  - intros h c. now apply In_published_pairs.
  - intros p. rewrite BuildDockerPublishArgumentString_eq.
    split; [|reflexivity].
    unfold published_pairs, PyStr.join. simpl. now rewrite append_empty_r.
Qed.

Lemma publish_string_tokens_witness :
  exists self',
    _BuildDockerPublishArgumentString
      {| used_host_ports := [(8000, 9000)];
         _port_mappings := [(8000, 9000)];
         container_port := 8080 |} =
    (Return "--publish=8000:9000 --publish=8080:8080 ", self').
Proof.
  apply (publish_string_tokens
           {| used_host_ports := [(8000, 9000)];
              _port_mappings := [(8000, 9000)];
              container_port := 8080 |}).
  unfold PyDict.wf. simpl. repeat constructor; simpl; intuition lia.
Defined.

(** C9: the value that [GetReplicaPoolParameters] returns has, at
    [template], [vmParams], [metadata], [items], a list of one entry,
    with [gae_publish_ports] at [key] and, at [value], the string that
    [_BuildDockerPublishArgumentString] returns on the same object. *)
Theorem replica_pool_parameters_shape self :
  exists publish_ports fragment self',
    _BuildDockerPublishArgumentString self = (Return publish_ports, self') /\
    GetReplicaPoolParameters self = (Return fragment, self') /\
    at_path ["template"; "vmParams"; "metadata"; "items"] fragment =
    Some (VList [VDict [("key", VStr "gae_publish_ports");
                        ("value", VStr publish_ports)]]).
Proof.
  unfold GetReplicaPoolParameters. unfold bind at 1.
  rewrite BuildDockerPublishArgumentString_eq.
  eexists _, _, _. split; [reflexivity|]. split; reflexivity.
Qed.

(** C10: when a batch fails after one of its descriptions, [h:c], has
    passed the conflict check, the mapping is as before the batch but
    [h] stays recorded with [c]: after any calls, a batch whose loop
    comes to a description of [h] with another container port raises
    the conflict error, whether or not [h] is in the mapping. *)
Theorem failed_batch_keeps_host_port_recorded
  ports kind self l1 port l2 pt1 self1 h c e self' :
  port_list ports = (l1 ++ port :: l2)%list ->
  Add_loop kind l1 PyDict.empty self = (Return pt1, self1) ->
  parse_port port = Some (h, c) ->
  conflicts h c (used_host_ports self1) = false ->
  Add ports kind self = (Raise e, self') ->
  AllMappings self' = AllMappings self /\
  PyDict.get h (used_host_ports self') = Some c /\
  forall calls ports2 kind2 k1 port2 k2 c2 pt2 self2,
    port_list ports2 = (k1 ++ port2 :: k2)%list ->
    Add_loop kind2 k1 PyDict.empty (run_calls calls self') =
    (Return pt2, self2) ->
    parse_port port2 = Some (h, c2) -> c2 <> c ->
    Add ports2 kind2 (run_calls calls self') =
    (Raise (InconsistentPortConfigurationError h), self2) /\
    AllMappings self2 = AllMappings (run_calls calls self').
Proof.
  intros Hl H1 Hp Hc HA.
  assert (Hu : PyDict.get h (used_host_ports self') = Some c).
  { pose proof HA as HA'. rewrite Add_eq, Hl, Add_loop_app, H1, Add_loop_cons in HA'.
    assert (Hr : PyDict.get h (used_host_ports (record_used h c self1)) = Some c)
      by apply PyDictFacts.get_set_same.
    destruct (legal_pair h c) eqn:Hleg.
    - rewrite (Add_port_legal _ _ _ _ _ _ Hp Hc Hleg) in HA'.
      destruct (Add_loop kind l2 (PyDict.set h c pt1) (record_used h c self1))
        as [[pt2|e2] s2] eqn:E2; [discriminate|].
      injection HA' as _ <-. eapply Add_loop_used_stable; eauto.
    - destruct (Add_port_illegal kind _ pt1 _ _ _ Hp Hc Hleg) as [why Hw].
      rewrite Hw in HA'. now injection HA' as _ <-. }
  split; [|split; [exact Hu|]].
  - rewrite !AllMappings_eq. now apply Add_Raise_frame in HA.
  - intros calls ports2 kind2 k1 port2 k2 c2 pt2 self2 Hl2 H2 Hp2 Hne.
    apply (run_calls_used_stable calls) in Hu.
    pose proof (Add_loop_used_stable _ _ _ _ _ _ _ _ H2 Hu) as Hu2.
    pose proof (Add_loop_frame _ _ _ _ _ _ H2) as [Hf _].
    split; [|now rewrite !AllMappings_eq].
    rewrite Add_eq, Hl2.
    now rewrite (Add_loop_conflict _ _ _ _ _ _ _ _ _ _ _ H2 Hp2 Hu2)
      by congruence.
Qed.

Lemma failed_batch_keeps_host_port_recorded_witness :
  AllMappings {| used_host_ports := [(8000, 9000); (22, 22)];
                 _port_mappings := [];
                 container_port := 8080 |} = AllMappings (__init__ 8080) /\
  PyDict.mem 8000 (AllMappings (__init__ 8080)) = false /\
  Add (PortsList ["8000:9001"]) "forwarded"
      {| used_host_ports := [(8000, 9000); (22, 22)];
         _port_mappings := [];
         container_port := 8080 |} =
  (Raise (InconsistentPortConfigurationError 8000),
   {| used_host_ports := [(8000, 9000); (22, 22)];
      _port_mappings := [];
      container_port := 8080 |}).
Proof.
  destruct (failed_batch_keeps_host_port_recorded
              (PortsList ["8000:9000"; "22:22"]) "forwarded" (__init__ 8080)
              [] "8000:9000" ["22:22"] PyDict.empty (__init__ 8080) 8000 9000
              (IllegalPortConfigurationError (PrivilegedPort 22))
              {| used_host_ports := [(8000, 9000); (22, 22)];
                 _port_mappings := [];
                 container_port := 8080 |}
              eq_refl eq_refl eq_refl eq_refl eq_refl) as (H1 & _ & H3).
  split; [exact H1|]. split; [reflexivity|].
  apply (H3 [] (PortsList ["8000:9001"]) "forwarded" [] "8000:9001" [] 9001
            PyDict.empty
            {| used_host_ports := [(8000, 9000); (22, 22)];
               _port_mappings := [];
               container_port := 8080 |} eq_refl eq_refl eq_refl).
  discriminate.
Defined.

(** * Further properties of the module *)

(** ** More on dictionaries *)

Lemma set_set_same k v v0 d :
  PyDict.set k v (PyDict.set k v0 d) = PyDict.set k v d.
Proof.
  induction d as [|[k' v'] d IH]; simpl.
  - now rewrite Z.eqb_refl.
  - destruct (k' =? k) eqn:E; simpl.
    + now rewrite Z.eqb_refl.
    + now rewrite E, IH.
Qed.

(** Assigning to a key that is present commutes with assigning to
    another key. *)
Lemma set_comm_mem k v a w d :
  PyDict.mem k d = true -> a <> k ->
  PyDict.set k v (PyDict.set a w d) = PyDict.set a w (PyDict.set k v d).
Proof.
  unfold PyDict.mem. intros Hk Hne.
  induction d as [|[k' v'] d IH]; simpl in *; [discriminate|].
  destruct (k' =? k) eqn:E.
  - apply Z.eqb_eq in E. subst k'.
    destruct (k =? a) eqn:Ea; [apply Z.eqb_eq in Ea; congruence|].
    simpl. now rewrite Z.eqb_refl, Ea.
  - destruct (k' =? a) eqn:Ea; simpl.
    + apply Z.eqb_eq in Ea. subst k'.
      destruct (a =? k) eqn:E'; [discriminate|]. now rewrite Z.eqb_refl.
    + now rewrite E, Ea, IH.
Qed.

Lemma mem_set k a w d :
  PyDict.mem k d = true -> PyDict.mem k (PyDict.set a w d) = true.
Proof.
  unfold PyDict.mem. destruct (Z.eq_dec a k) as [->|Hne].
  - now rewrite PyDictFacts.get_set_same.
  - now rewrite PyDictFacts.get_set_other.
Qed.

Lemma set_update_absent k v d o :
  ~ In k (PyDict.keys o) -> PyDict.mem k d = true ->
  PyDict.set k v (PyDict.update d o) = PyDict.update (PyDict.set k v d) o.
Proof.
  unfold PyDict.update. revert d.
  induction o as [|[a w] o IH]; simpl; intros d Hk Hm; [reflexivity|].
  rewrite IH; [|tauto|now apply mem_set].
  rewrite set_comm_mem; [reflexivity|exact Hm|tauto].
Qed.

Lemma update_set k v m d :
  PyDict.wf d ->
  PyDict.update m (PyDict.set k v d) = PyDict.set k v (PyDict.update m d).
Proof.
  unfold PyDict.wf. revert m.
  induction d as [|[k' v'] d IH]; intros m Hwf; [reflexivity|].
  inversion Hwf as [|? ? Hk Hd]; subst. simpl.
  destruct (k' =? k) eqn:E.
  - apply Z.eqb_eq in E. subst k'.
    change (PyDict.update m ((k, v) :: d))
      with (PyDict.update (PyDict.set k v m) d).
    change (PyDict.update m ((k, v') :: d))
      with (PyDict.update (PyDict.set k v' m) d).
    rewrite set_update_absent; [now rewrite set_set_same|exact Hk|].
    unfold PyDict.mem. now rewrite PyDictFacts.get_set_same.
  - change (PyDict.update m ((k', v') :: PyDict.set k v d))
      with (PyDict.update (PyDict.set k' v' m) (PyDict.set k v d)).
    now rewrite IH.
Qed.

(** Updating with an updated dictionary is updating twice. *)
Lemma update_update m d o :
  PyDict.wf d ->
  PyDict.update m (PyDict.update d o) = PyDict.update (PyDict.update m d) o.
Proof.
  revert d. induction o as [|[k v] o IH]; intros d Hwf; [reflexivity|].
  change (PyDict.update d ((k, v) :: o))
    with (PyDict.update (PyDict.set k v d) o).
  rewrite IH by now apply PyDictFacts.wf_set.
  now rewrite update_set.
Qed.

Lemma update_empty_l o :
  PyDict.wf o -> PyDict.update PyDict.empty o = o.
Proof.
  unfold PyDict.wf, PyDict.update.
  assert (H : forall d, NoDup (PyDict.keys (d ++ o)%list) ->
                        fold_left (fun acc kv => PyDict.set (fst kv) (snd kv) acc)
                                  o d = (d ++ o)%list).
  { induction o as [|[k v] o IH]; intros d Hnd; simpl.
    - now rewrite app_nil_r.
    - assert (Hs : PyDict.set k v d = (d ++ [(k, v)])%list).
      { assert (Hk : ~ In k (PyDict.keys d)).
        { unfold PyDict.keys in *. rewrite map_app in Hnd.
          apply NoDup_remove_2 in Hnd. intros Hin. apply Hnd.
          apply in_or_app. now left. }
        clear -Hk. induction d as [|[k' v'] d IHd]; simpl in *; [reflexivity|].
        destruct (k' =? k) eqn:E; [apply Z.eqb_eq in E; tauto|].
        rewrite IHd; tauto. }
      rewrite Hs, IH; rewrite <- app_assoc; [reflexivity | exact Hnd]. }
  intros Hwf. now apply (H []).
Qed.

Lemma get_update_absent k d o :
  ~ In k (PyDict.keys o) ->
  PyDict.get k (PyDict.update d o) = PyDict.get k d.
Proof.
  unfold PyDict.update. revert d.
  induction o as [|[a w] o IH]; simpl; intros d Hk; [reflexivity|].
  rewrite IH by tauto. apply PyDictFacts.get_set_other. tauto.
Qed.

(** ** More on the loop of [Add] *)

Lemma with_port_mappings_id self :
  with_port_mappings (_port_mappings self) self = self.
Proof. now destruct self. Qed.

(** The loop reads neither [port_translations] nor [_port_mappings]:
    with others in their place it ends the same way, and what it returns
    is what it started from, updated with the pairs of the batch. *)
Lemma Add_loop_change kind ports pt q m self :
  Add_loop kind ports q (with_port_mappings m self) =
  match Add_loop kind ports pt self with
  | (Return _, self') =>
      (Return (PyDict.update q (batch_pairs ports)), with_port_mappings m self')
  | (Raise e, self') => (Raise e, with_port_mappings m self')
  end.
Proof.
  revert pt q self. induction ports as [|port ports IH]; intros pt q self.
  - reflexivity.
  - rewrite !Add_loop_cons. unfold batch_pairs. cbn [flat_map].
    fold (batch_pairs ports).
    destruct (parse_port port) as [[h c]|] eqn:Hp.
    + destruct (conflicts h c (used_host_ports self)) eqn:Hc.
      * rewrite !(Add_port_conflict _ _ _ _ _ _ Hp) by exact Hc. reflexivity.
      * destruct (legal_pair h c) eqn:Hl.
        -- rewrite !(Add_port_legal _ _ _ _ _ _ Hp) by assumption.
           change (record_used h c (with_port_mappings m self))
             with (with_port_mappings m (record_used h c self)).
           rewrite (IH (PyDict.set h c pt)). reflexivity.
        -- unfold Add_port, legal_pair in *. rewrite Hp. run_method.
           cbn [used_host_ports with_port_mappings]. rewrite Hc.
           destruct (out_of_range h c); [reflexivity|].
           destruct (c <? 1024); [reflexivity|].
           destruct (py_in c RESERVED_DOCKER_PORTS); [reflexivity|].
           destruct (py_in h RESERVED_HOST_PORTS); [reflexivity|discriminate].
    + rewrite !(Add_port_malformed _ _ _ _ Hp). reflexivity.
Qed.

Lemma py_in_In x l : py_in x l = true <-> In x l.
Proof.
  unfold py_in. rewrite existsb_exists. split.
  - intros (y & Hy & E). apply Z.eqb_eq in E. now subst.
  - intros H. exists x. split; [exact H | apply Z.eqb_refl].
Qed.

Lemma In_batch_pairs h c ports :
  In (h, c) (batch_pairs ports) <->
  exists port, In port ports /\ parse_port port = Some (h, c).
Proof.
  unfold batch_pairs. rewrite in_flat_map. split.
  - intros (port & Hin & H). exists port. split; [exact Hin|].
    destruct (parse_port port) as [kv|]; [|contradiction].
    destruct H as [-> | []]. reflexivity.
  - intros (port & Hin & Hp). exists port. split; [exact Hin|].
    rewrite Hp. now left.
Qed.

Lemma Add_loop_acceptable kind ports pt self :
  acceptable self ports ->
  exists pt' self', Add_loop kind ports pt self = (Return pt', self').
Proof.
  revert pt self. induction ports as [|port ports IH]; intros pt self.
  - intros _. now exists pt, self.
  - intros (Hleg & Hused & Hpair). rewrite Add_loop_cons.
    assert (Hl : legal_port port = true) by (apply Hleg; now left).
    unfold legal_port in Hl.
    destruct (parse_port port) as [[h c]|] eqn:Hp; [|discriminate].
    assert (Hc : conflicts h c (used_host_ports self) = false).
    { apply conflicts_false_iff.
      destruct (PyDict.get h (used_host_ports self)) as [p|] eqn:Hu; [|now left].
      right. f_equal. apply (Hused port h c p); auto. now left. }
    rewrite (Add_port_legal _ _ _ _ _ _ Hp Hc Hl). apply IH.
    split; [|split].
    + intros q Hq. apply Hleg. now right.
    + intros q h' c' p Hq Hq' Hu. cbn [record_used used_host_ports] in Hu.
      destruct (Z.eq_dec h h') as [<-|Hne].
      * rewrite PyDictFacts.get_set_same in Hu. injection Hu as <-.
        apply (Hpair port q h c c'); auto; [now left | now right].
      * rewrite PyDictFacts.get_set_other in Hu by exact Hne.
        apply (Hused q h' c' p); auto. now right.
    + intros q1 q2 h' c1 c2 H1 H2. apply Hpair; now right.
Qed.

Lemma Add_loop_Return_acceptable kind ports pt self pt' self' :
  Add_loop kind ports pt self = (Return pt', self') -> acceptable self ports.
Proof.
  intros H. split; [|split].
  - apply Add_loop_Return_legal in H. now rewrite Forall_forall in H.
  - intros port h c p Hin Hp Hu.
    pose proof (Add_loop_used_stable _ _ _ _ _ _ _ _ H Hu) as Hu'.
    destruct (Add_loop_tracks _ _ _ _ _ _ _ _ _ H Hin Hp) as [Hc _]. congruence.
  - intros port1 port2 h c1 c2 Hin1 Hin2 Hp1 Hp2.
    destruct (Add_loop_tracks _ _ _ _ _ _ _ _ _ H Hin1 Hp1) as [H1 _].
    destruct (Add_loop_tracks _ _ _ _ _ _ _ _ _ H Hin2 Hp2) as [H2 _]. congruence.
Qed.

Lemma justified_cons self kind port ports h c e :
  parse_port port = Some (h, c) ->
  justified (record_used h c self) kind ports e ->
  justified self kind (port :: ports) e.
Proof.
  intros Hp. destruct e as [h'|[k q|c'|c'|h'|k q]]; cbn [justified].
  - intros (q & c' & p & Hin & Hq & Hne & Hor).
    exists q, c', p. split; [now right|]. split; [exact Hq|]. split; [exact Hne|].
    destruct Hor as [Hu | (q' & Hin' & Hq')].
    + cbn [record_used used_host_ports] in Hu.
      destruct (Z.eq_dec h h') as [<-|Hd].
      * rewrite PyDictFacts.get_set_same in Hu. injection Hu as <-.
        right. exists port. split; [now left | exact Hp].
      * rewrite PyDictFacts.get_set_other in Hu by exact Hd. now left.
    + right. exists q'. split; [now right | exact Hq'].
  - intros (Hk & Hin & H). repeat split; auto. now right.
  - intros (Hr & q & h'' & Hin & H). split; [exact Hr|].
    exists q, h''. split; [now right | exact H].
  - intros (Hr & q & h'' & Hin & H). split; [exact Hr|].
    exists q, h''. split; [now right | exact H].
  - intros (Hr & q & c'' & Hin & H). split; [exact Hr|].
    exists q, c''. split; [now right | exact H].
  - intros (Hk & Hin & H). repeat split; auto. now right.
Qed.

Lemma Add_loop_Raise_justified kind ports pt self e self' :
  Add_loop kind ports pt self = (Raise e, self') ->
  justified self kind ports e.
Proof.
  revert pt self. induction ports as [|port ports IH]; intros pt self.
  - discriminate.
  - rewrite Add_loop_cons.
    destruct (Add_port kind port pt self) as [[pt1|e1] s1] eqn:E.
    + intros H. apply Add_port_Return in E.
      destruct E as (h & c & Hp & _ & _ & -> & ->).
      apply (justified_cons _ _ _ _ h c); [exact Hp|]. eapply IH; eauto.
    + intros [= <- <-]. unfold Add_port in E.
      destruct (parse_port port) as [[h c]|] eqn:Hp.
      * revert E. run_method.
        destruct (conflicts h c (used_host_ports self)) eqn:Hc.
        { intros [= <- _]. apply conflicts_true_iff in Hc.
          destruct Hc as (p & Hu & Hne). cbn [justified].
          exists port, c, p. split; [now left|]. auto. }
        destruct (out_of_range h c) eqn:Hr.
        { intros [= <- _]. cbn [justified].
          split; [reflexivity|]. split; [now left|]. eauto. }
        unfold out_of_range in Hr.
        repeat (apply orb_false_elim in Hr; destruct Hr as [Hr ?]).
        repeat match goal with
               | H : (_ <? _) = false |- _ => apply Z.ltb_ge in H
               | H : (_ >? _) = false |- _ =>
                   rewrite Z.gtb_ltb in H; apply Z.ltb_ge in H
               end.
        destruct (c <? 1024) eqn:Hpriv.
        { intros [= <- _]. apply Z.ltb_lt in Hpriv. cbn [justified].
          split; [lia|]. exists port, h. split; [now left|]. split; [exact Hp|lia]. }
        apply Z.ltb_ge in Hpriv.
        destruct (py_in c RESERVED_DOCKER_PORTS) eqn:Hd.
        { intros [= <- _]. apply py_in_In in Hd. cbn [justified].
          split.
          - simpl in Hd. destruct Hd as [Hd|[Hd|[Hd|[]]]]; lia.
          - exists port, h. split; [now left|]. split; [exact Hp|lia]. }
        destruct (py_in h RESERVED_HOST_PORTS) eqn:Hh; [|discriminate].
        intros [= <- _]. apply py_in_In in Hh. cbn [justified].
        split; [exact Hh|]. exists port, c. split; [now left|].
        split; [exact Hp|]. split; [lia|].
        intros Hin. apply py_in_In in Hin. congruence.
      * injection E as <- _. cbn [justified]. repeat split; auto. now left.
Qed.

(** ** What [Add] accepts, returns and raises *)

(** X1: [Add] returns, rather than raises, exactly for the batches that
    are acceptable to the object: every description is legal, no host
    port of the batch is recorded with another container port, and no
    two descriptions of the batch give one host port two container
    ports. *)
Theorem Add_returns_iff_acceptable ports kind self :
  (exists pt self', Add ports kind self = (Return pt, self')) <->
  acceptable self (port_list ports).
Proof.
  rewrite Add_eq. split.
  - intros (pt & self' & H).
    destruct (Add_loop kind (port_list ports) PyDict.empty self)
      as [[pt1|e] s1] eqn:E; [|discriminate].
    eapply Add_loop_Return_acceptable; eauto.
  - intros Hacc.
    destruct (Add_loop_acceptable kind _ PyDict.empty _ Hacc) as (pt & s1 & E).
    rewrite E. eauto.
Qed.

(** X2: an exception of [Add] is justified by the batch: the conflict
    error names a host port that a description of the batch asks for
    with a container port other than the one it is recorded with or
    that another description of the batch gives it; an
    illegal-configuration error names a malformed description of the
    batch, one with a port out of range, a container port in
    [1, 1023], the container port 5000 or 10001, or a reserved host
    port with an admissible container port.  Port 22 is never reported
    as a reserved container port. *)
Theorem Add_raise_justified ports kind self e self' :
  Add ports kind self = (Raise e, self') ->
  justified self kind (port_list ports) e /\
  e <> IllegalPortConfigurationError (ReservedDockerPort 22).
Proof.
  rewrite Add_eq.
  destruct (Add_loop kind (port_list ports) PyDict.empty self)
    as [[pt1|e1] s1] eqn:E; [discriminate|].
  intros [= <- <-]. apply Add_loop_Raise_justified in E.
  split; [exact E|]. intros ->. cbn [justified] in E. lia.
Qed.

Lemma Add_raise_justified_witness :
  justified (__init__ 8080) "forwarded" ["8000"; "8000:9000"]
    (InconsistentPortConfigurationError 8000) /\
  InconsistentPortConfigurationError 8000 <>
  IllegalPortConfigurationError (ReservedDockerPort 22).
Proof.
  apply (Add_raise_justified (PortsList ["8000"; "8000:9000"]) "forwarded"
           (__init__ 8080) (InconsistentPortConfigurationError 8000)
           {| used_host_ports := [(8000, 8000)];
              _port_mappings := [];
              container_port := 8080 |}).
  reflexivity.
Defined.

Lemma keys_update k d o :
  In k (PyDict.keys (PyDict.update d o)) ->
  In k (PyDict.keys d) \/ exists v, In (k, v) o.
Proof.
  unfold PyDict.keys. rewrite in_map_iff. intros ([k' v] & <- & Hin).
  apply PyDictFacts.In_update in Hin. destruct Hin as [Hin | Hin].
  - left. change k' with (fst (k', v)). now apply in_map.
  - right. now exists v.
Qed.

(** X3: when [Add] returns, the dictionary it returns is the pairs of
    the batch put into an empty dictionary one after the other, and
    the mapping is the one from before updated with it: each
    description of the batch has its host port mapped to its container
    port in both, and a host port that no description of the batch
    names is not in the returned dictionary and is mapped as before. *)
Theorem Add_returns_batch_mapping ports kind self pt self' :
  Add ports kind self = (Return pt, self') ->
  pt = PyDict.update PyDict.empty (batch_pairs (port_list ports)) /\
  PyDict.wf pt /\
  AllMappings self' = PyDict.update (AllMappings self) pt /\
  (forall port h c,
      In port (port_list ports) -> parse_port port = Some (h, c) ->
      PyDict.get h pt = Some c /\
      PyDict.get h (AllMappings self') = Some c) /\
  (forall k,
      (forall port h c, In port (port_list ports) ->
                        parse_port port = Some (h, c) -> h <> k) ->
      PyDict.get k pt = None /\
      PyDict.get k (AllMappings self') = PyDict.get k (AllMappings self)).
Proof.
  intros HA. pose proof HA as HA'. rewrite Add_eq in HA'.
  destruct (Add_loop kind (port_list ports) PyDict.empty self)
    as [[pt1|e] s1] eqn:E; [|discriminate].
  injection HA' as <- <-.
  pose proof (Add_loop_change kind (port_list ports) PyDict.empty PyDict.empty
                (_port_mappings self) self) as Hch.
  rewrite with_port_mappings_id, E in Hch. injection Hch as Hpt Hs.
  pose proof (Add_loop_frame _ _ _ _ _ _ E) as [Hf _].
  assert (Habs : forall k,
             (forall port h c, In port (port_list ports) ->
                               parse_port port = Some (h, c) -> h <> k) ->
             ~ In k (PyDict.keys pt1)).
  { intros k Hk Hin. rewrite Hpt in Hin. apply keys_update in Hin.
    destruct Hin as [[] | (v & Hv)]. apply In_batch_pairs in Hv.
    destruct Hv as (port & Hin & Hp). now apply (Hk port k v). }
  split; [exact Hpt|]. split; [|split; [|split]].
  - rewrite Hpt. apply PyDictFacts.wf_update, PyDictFacts.wf_empty.
  - rewrite !AllMappings_eq. cbn [commit _port_mappings]. now rewrite Hf.
  - intros port h c Hin Hp.
    split; [exact (proj2 (Add_loop_tracks _ _ _ _ _ _ _ _ _ E Hin Hp))|].
    rewrite AllMappings_eq.
    destruct (Add_Return_tracked _ _ _ _ _ _ _ _ HA Hin Hp) as [[_ Hm] _].
    exact Hm.
  - intros k Hk. specialize (Habs k Hk). split.
    + now apply PyDictFacts.get_None_keys.
    + rewrite !AllMappings_eq. cbn [commit _port_mappings]. rewrite Hf.
      now apply get_update_absent.
Qed.

Lemma Add_returns_batch_mapping_witness :
  [(8000, 9000); (4000, 4000)] =
  PyDict.update PyDict.empty (batch_pairs ["8000:9000"; "4000"; "8000:9000"]) /\
  AllMappings {| used_host_ports := [(7000, 7000); (8000, 9000); (4000, 4000)];
                 _port_mappings := [(7000, 7000); (8000, 9000); (4000, 4000)];
                 container_port := 8080 |} =
  PyDict.update
    (AllMappings {| used_host_ports := [(7000, 7000)];
                    _port_mappings := [(7000, 7000)];
                    container_port := 8080 |})
    [(8000, 9000); (4000, 4000)].
Proof.
  destruct (Add_returns_batch_mapping
              (PortsList ["8000:9000"; "4000"; "8000:9000"]) "forwarded"
              {| used_host_ports := [(7000, 7000)];
                 _port_mappings := [(7000, 7000)];
                 container_port := 8080 |}
              [(8000, 9000); (4000, 4000)]
              {| used_host_ports := [(7000, 7000); (8000, 9000); (4000, 4000)];
                 _port_mappings := [(7000, 7000); (8000, 9000); (4000, 4000)];
                 container_port := 8080 |} eq_refl) as (H1 & _ & H3 & _).
  split; [exact H1 | exact H3].
Defined.

(** X4: a batch that [Add] accepts can be added in two parts: [Add]
    returns for the two parts one after the other, with the same
    object at the end, and the dictionary returned for the whole batch
    is the one returned for the first part updated with the one
    returned for the second.  Two batches that [Add] accepts one after
    the other are accepted as one batch, in the same way. *)
Theorem Add_split_batch kind l1 l2 self :
  (forall pt self',
      Add (PortsList (l1 ++ l2)) kind self = (Return pt, self') ->
      exists pt1 self1 pt2,
        Add (PortsList l1) kind self = (Return pt1, self1) /\
        Add (PortsList l2) kind self1 = (Return pt2, self') /\
        pt = PyDict.update pt1 pt2) /\
  (forall pt1 self1 pt2 self2,
      Add (PortsList l1) kind self = (Return pt1, self1) ->
      Add (PortsList l2) kind self1 = (Return pt2, self2) ->
      Add (PortsList (l1 ++ l2)) kind self =
      (Return (PyDict.update pt1 pt2), self2)).
Proof.
  assert (Hseq : forall pt1 u1,
    Add_loop kind l1 PyDict.empty self = (Return pt1, u1) ->
    forall pt2 u2,
    Add_loop kind l2 pt1 u1 = (Return pt2, u2) ->
    Add (PortsList l1) kind self = (Return pt1, commit pt1 u1) /\
    Add (PortsList l2) kind (commit pt1 u1) =
    (Return (PyDict.update PyDict.empty (batch_pairs l2)), commit pt2 u2) /\
    Add (PortsList (l1 ++ l2)) kind self = (Return pt2, commit pt2 u2) /\
    pt2 = PyDict.update pt1 (PyDict.update PyDict.empty (batch_pairs l2))).
  { intros pt1 u1 E1 pt2 u2 E2.
    pose proof (Add_loop_change kind l1 PyDict.empty PyDict.empty
                  (_port_mappings self) self) as Hc1.
    rewrite with_port_mappings_id, E1 in Hc1. injection Hc1 as Hpt1 _.
    assert (Hwf1 : PyDict.wf pt1)
      by (rewrite Hpt1; apply PyDictFacts.wf_update, PyDictFacts.wf_empty).
    pose proof (Add_loop_change kind l2 pt1 pt1 (_port_mappings u1) u1) as Hc2.
    rewrite with_port_mappings_id, E2 in Hc2. injection Hc2 as Hpt2 _.
    pose proof (Add_loop_change kind l2 pt1 PyDict.empty
                  (PyDict.update (_port_mappings u1) pt1) u1) as Hc3.
    rewrite E2 in Hc3.
    change (with_port_mappings (PyDict.update (_port_mappings u1) pt1) u1)
      with (commit pt1 u1) in Hc3.
    assert (Hpt : pt2 = PyDict.update pt1
                          (PyDict.update PyDict.empty (batch_pairs l2))).
    { rewrite Hpt2. symmetry.
      now rewrite (update_update pt1 PyDict.empty) by apply PyDictFacts.wf_empty. }
    split; [|split; [|split; [|exact Hpt]]].
    - rewrite Add_eq. cbn [port_list]. now rewrite E1.
    - rewrite Add_eq. cbn [port_list]. rewrite Hc3. f_equal.
      unfold commit, with_port_mappings.
      cbn [used_host_ports _port_mappings container_port].
      pose proof (Add_loop_frame _ _ _ _ _ _ E2) as [Hf _]. rewrite Hf.
      f_equal. rewrite Hpt.
      rewrite (update_update (_port_mappings u1) pt1) by exact Hwf1.
      reflexivity.
    - rewrite Add_eq. cbn [port_list]. now rewrite Add_loop_app, E1, E2. }
  split.
  - intros pt self' HA. rewrite Add_eq in HA. cbn [port_list] in HA.
    rewrite Add_loop_app in HA.
    destruct (Add_loop kind l1 PyDict.empty self) as [[pt1|e] u1] eqn:E1;
      [|discriminate].
    destruct (Add_loop kind l2 pt1 u1) as [[pt2|e] u2] eqn:E2; [|discriminate].
    injection HA as <- <-.
    destruct (Hseq _ _ eq_refl _ _ E2) as (H1 & H2 & _ & Hpt). eauto 8.
  - intros pt1 self1 pt2 self2 H1 H2.
    rewrite Add_eq in H1. cbn [port_list] in H1.
    destruct (Add_loop kind l1 PyDict.empty self) as [[q1|e] u1] eqn:E1;
      [|discriminate].
    injection H1 as <- <-.
    pose proof (Add_loop_change kind l2 PyDict.empty q1
                  (_port_mappings u1) (commit q1 u1)) as Hc.
    change (with_port_mappings (_port_mappings u1) (commit q1 u1))
      with (with_port_mappings (_port_mappings u1) u1) in Hc.
    rewrite with_port_mappings_id in Hc.
    rewrite Add_eq in H2. cbn [port_list] in H2.
    destruct (Add_loop kind l2 PyDict.empty (commit q1 u1))
      as [[q2|e] u2] eqn:E2; [|discriminate].
    injection H2 as <- <-.
    destruct (Hseq _ _ eq_refl _ _ Hc) as (_ & H2' & H3 & Hpt).
    rewrite Add_eq in H2'. cbn [port_list] in H2'. rewrite E2 in H2'.
    assert (Hq2 : q2 = PyDict.update PyDict.empty (batch_pairs l2))
      by congruence.
    assert (Hs : commit q2 u2 =
                 commit (PyDict.update q1 (batch_pairs l2))
                        (with_port_mappings (_port_mappings u1) u2))
      by congruence.
    rewrite H3, Hs, Hpt, <- Hq2. reflexivity.
Qed.

Lemma Add_split_batch_witness :
  Add (PortsList (["8000:9000"] ++ ["4000"])) "forwarded" (__init__ 8080) =
  (Return (PyDict.update [(8000, 9000)] [(4000, 4000)]),
   {| used_host_ports := [(8000, 9000); (4000, 4000)];
      _port_mappings := [(8000, 9000); (4000, 4000)];
      container_port := 8080 |}).
Proof.
  apply (proj2 (Add_split_batch "forwarded" ["8000:9000"] ["4000"]
                  (__init__ 8080))
           [(8000, 9000)]
           {| used_host_ports := [(8000, 9000)];
              _port_mappings := [(8000, 9000)];
              container_port := 8080 |}
           [(4000, 4000)]).
  - reflexivity.
  - reflexivity.
Defined.

(** ** More on rendering *)

Lemma is_empty_set k v d : PyDict.is_empty (PyDict.set k v d) = false.
Proof. destruct d as [|[k' v'] d]; simpl; [reflexivity|]. now destruct (k' =? k). Qed.

(** X5: building the publish string a second time returns the same
    string and leaves the object as the first time left it; so does
    [GetReplicaPoolParameters] with its value. *)
Theorem rendering_twice self :
  exists publish_ports self1,
    _BuildDockerPublishArgumentString self = (Return publish_ports, self1) /\
    _BuildDockerPublishArgumentString self1 = (Return publish_ports, self1) /\
    GetReplicaPoolParameters self1 =
    (fst (GetReplicaPoolParameters self), self1).
Proof.
  assert (H : forall s,
             _BuildDockerPublishArgumentString
               (snd (_BuildDockerPublishArgumentString s)) =
             _BuildDockerPublishArgumentString s).
  { intros s. rewrite !BuildDockerPublishArgumentString_eq. cbn [snd].
    destruct (PyDict.is_empty (_port_mappings s)) eqn:E.
    - now rewrite E.
    - unfold published_pairs, store_port_mapping.
      cbn [_port_mappings container_port used_host_ports].
      now rewrite is_empty_set, !set_set_same. }
  destruct (_BuildDockerPublishArgumentString self) as [o self1] eqn:E.
  pose proof (H self) as H1. rewrite E in H1. cbn [snd] in H1.
  pose proof E as E'. rewrite BuildDockerPublishArgumentString_eq in E'.
  injection E' as Ho _. subst o. eexists _, self1.
  split; [reflexivity|]. split; [exact H1|].
  unfold GetReplicaPoolParameters, bind. now rewrite H1, E.
Qed.

(** X6: building the publish string does not change what [Add]
    returns or raises afterwards, nor what it records: [Add] ends with
    the same result and the same [used_host_ports] as on the object
    that was not rendered. *)
Theorem rendering_does_not_change_Add ports kind self :
  fst (Add ports kind (snd (_BuildDockerPublishArgumentString self))) =
  fst (Add ports kind self) /\
  used_host_ports
    (snd (Add ports kind (snd (_BuildDockerPublishArgumentString self)))) =
  used_host_ports (snd (Add ports kind self)) /\
  fst (Add ports kind (snd (GetReplicaPoolParameters self))) =
  fst (Add ports kind self).
Proof.
  assert (H : forall m,
    fst (Add ports kind (with_port_mappings m self)) = fst (Add ports kind self) /\
    used_host_ports (snd (Add ports kind (with_port_mappings m self))) =
    used_host_ports (snd (Add ports kind self))).
  { intros m. rewrite !Add_eq.
    rewrite (Add_loop_change kind (port_list ports) PyDict.empty PyDict.empty m).
    pose proof (Add_loop_change kind (port_list ports) PyDict.empty PyDict.empty
                  (_port_mappings self) self) as Hc.
    rewrite with_port_mappings_id in Hc.
    destruct (Add_loop kind (port_list ports) PyDict.empty self)
      as [[pt|e] s1] eqn:E.
    - injection Hc as Hpt _. now rewrite <- Hpt.
    - now split. }
  assert (Hs : snd (_BuildDockerPublishArgumentString self) =
               with_port_mappings
                 (_port_mappings (snd (_BuildDockerPublishArgumentString self)))
                 self).
  { rewrite BuildDockerPublishArgumentString_eq. cbn [snd].
    destruct (PyDict.is_empty (_port_mappings self)).
    - now rewrite with_port_mappings_id.
    - reflexivity. }
  rewrite GetReplicaPoolParameters_state, Hs.
  destruct (H (_port_mappings (snd (_BuildDockerPublishArgumentString self))))
    as [H1 H2].
  auto.
Qed.

(** ** Invariants of the objects that calls make *)

(** An entry of the mapping is the serving-port entry or is recorded in
    [used_host_ports] with the same container port. *)
Lemma run_call_recorded p self call :
  container_port self = p ->
  (forall h c, In (h, c) (_port_mappings self) ->
               (h = VM_PORT_FOR_CONTAINER /\ c = p) \/
               (h <> VM_PORT_FOR_CONTAINER /\
                PyDict.get h (used_host_ports self) = Some c)) ->
  container_port (run_call self call) = p /\
  (forall h c, In (h, c) (_port_mappings (run_call self call)) ->
               (h = VM_PORT_FOR_CONTAINER /\ c = p) \/
               (h <> VM_PORT_FOR_CONTAINER /\
                PyDict.get h (used_host_ports (run_call self call)) = Some c)).
Proof.
  intros Hp Hm.
  assert (Hbuild :
    container_port (snd (_BuildDockerPublishArgumentString self)) = p /\
    (forall h c,
        In (h, c)
           (_port_mappings (snd (_BuildDockerPublishArgumentString self))) ->
        (h = VM_PORT_FOR_CONTAINER /\ c = p) \/
        (h <> VM_PORT_FOR_CONTAINER /\
         PyDict.get h
           (used_host_ports (snd (_BuildDockerPublishArgumentString self))) =
         Some c))).
  { rewrite BuildDockerPublishArgumentString_eq. cbn [snd].
    destruct (PyDict.is_empty (_port_mappings self)); [now split|].
    split; [exact Hp|].
    cbn [store_port_mapping _port_mappings used_host_ports].
    intros h c Hin. apply PyDictFacts.In_set in Hin.
    destruct Hin as [[= -> ->] | Hin]; [left; now rewrite Hp | now apply Hm]. }
  destruct call as [ports kind| | |]; cbn [run_call].
  - destruct (Add ports kind self) as [o self'] eqn:HA. cbn [snd].
    pose proof HA as HA'. rewrite Add_eq in HA'.
    destruct (Add_loop kind (port_list ports) PyDict.empty self)
      as [[pt|e] s1] eqn:E; injection HA' as _ <-;
      pose proof (Add_loop_frame _ _ _ _ _ _ E) as [Hf Hc].
    + cbn [commit _port_mappings container_port used_host_ports].
      split; [congruence|].
      intros h c Hin. apply PyDictFacts.In_update in Hin.
      destruct Hin as [Hin | Hin].
      * rewrite Hf in Hin. destruct (Hm _ _ Hin) as [Hl | [Hne Hu]]; [now left|].
        right. split; [exact Hne|]. eapply Add_loop_used_stable; eauto.
      * right.
        destruct (Add_loop_translations_ok _ _ _ _ _ _ E
                    (translations_ok_empty self) h c Hin) as [Hu Hl].
        split; [now apply legal_pair_not_serving_port in Hl | exact Hu].
    + split; [congruence|]. rewrite Hf. intros h c Hin.
      destruct (Hm _ _ Hin) as [Hl | [Hne Hu]]; [now left|].
      right. split; [exact Hne|]. eapply Add_loop_used_stable; eauto.
  - rewrite GetAllMappedPorts_eq. now split.
  - exact Hbuild.
  - now rewrite GetReplicaPoolParameters_state.
Qed.

Lemma run_calls_recorded p calls :
  container_port (run_calls calls (__init__ p)) = p /\
  (forall h c,
      In (h, c) (_port_mappings (run_calls calls (__init__ p))) ->
      (h = VM_PORT_FOR_CONTAINER /\ c = p) \/
      (h <> VM_PORT_FOR_CONTAINER /\
       PyDict.get h (used_host_ports (run_calls calls (__init__ p))) = Some c)).
Proof.
  unfold run_calls.
  assert (H : container_port (__init__ p) = p /\
              (forall h c, In (h, c) (_port_mappings (__init__ p)) ->
                 (h = VM_PORT_FOR_CONTAINER /\ c = p) \/
                 (h <> VM_PORT_FOR_CONTAINER /\
                  PyDict.get h (used_host_ports (__init__ p)) = Some c)))
    by (split; [reflexivity | intros ? ? []]).
  revert H. generalize (__init__ p) as self.
  induction calls as [|call calls IH]; intros self [Hp Hm]; simpl.
  - now split.
  - apply IH. now apply run_call_recorded.
Qed.

(** X7: on an object that calls have made from a new one, no call
    removes an entry of the mapping or changes its container port:
    what [GetAllMappedPorts] maps a host port to, it maps it to after
    every further call. *)
Theorem mapping_only_grows p calls call h c :
  PyDict.get h (AllMappings (run_calls calls (__init__ p))) = Some c ->
  PyDict.get h (AllMappings (run_call (run_calls calls (__init__ p)) call)) =
  Some c.
Proof.
  rewrite !AllMappings_eq. intros Hg.
  destruct (run_calls_recorded p calls) as [Hp Hm].
  set (self := run_calls calls (__init__ p)) in *.
  destruct (Hm h c (PyDictFacts.get_In _ _ _ Hg)) as [[-> ->] | [Hne Hu]].
  - destruct call as [ports kind| | |]; cbn [run_call].
    + destruct (Add ports kind self) as [o self'] eqn:HA. cbn [snd].
      rewrite Add_eq in HA.
      destruct (Add_loop kind (port_list ports) PyDict.empty self)
        as [[pt|e] s1] eqn:E; injection HA as _ <-;
        pose proof (Add_loop_frame _ _ _ _ _ _ E) as [Hf _].
      * cbn [commit _port_mappings]. rewrite Hf.
        apply PyDictFacts.get_update_agree; [exact Hg|].
        intros v Hv.
        destruct (Add_loop_translations_ok _ _ _ _ _ _ E
                    (translations_ok_empty self) _ _ Hv) as [_ Hl].
        now apply legal_pair_not_serving_port in Hl.
      * now rewrite Hf.
    + now rewrite GetAllMappedPorts_eq.
    + rewrite BuildDockerPublishArgumentString_eq. cbn [snd].
      destruct (PyDict.is_empty (_port_mappings self)); [exact Hg|].
      cbn [store_port_mapping _port_mappings].
      rewrite PyDictFacts.get_set_same. now rewrite Hp.
    + rewrite GetReplicaPoolParameters_state,
        BuildDockerPublishArgumentString_eq. cbn [snd].
      destruct (PyDict.is_empty (_port_mappings self)); [exact Hg|].
      cbn [store_port_mapping _port_mappings].
      rewrite PyDictFacts.get_set_same. now rewrite Hp.
  - apply (run_call_tracked h c self call Hne). now split.
Qed.

Lemma mapping_only_grows_witness :
  PyDict.get 8000
    (AllMappings
       (run_call
          (run_calls [CallAdd (PortsList ["8000:9000"]) "forwarded"]
                     (__init__ 8080))
          (CallAdd (PortsList ["8000:9001"; "7000"]) "forwarded"))) =
  Some 9000.
Proof.
  apply (mapping_only_grows 8080
           [CallAdd (PortsList ["8000:9000"]) "forwarded"]
           (CallAdd (PortsList ["8000:9001"; "7000"]) "forwarded") 8000 9000).
  reflexivity.
Defined.

Lemma run_call_entries_ok self call :
  is_render call = false ->
  (forall kv, In kv (_port_mappings self) -> entry_ok kv) ->
  forall kv, In kv (_port_mappings (run_call self call)) -> entry_ok kv.
Proof.
  intros Hr Hm. destruct call as [ports kind| | |]; try discriminate Hr;
    cbn [run_call].
  - destruct (Add ports kind self) as [o self'] eqn:HA. cbn [snd].
    rewrite Add_eq in HA.
    destruct (Add_loop kind (port_list ports) PyDict.empty self)
      as [[pt|e] s1] eqn:E; injection HA as _ <-;
      pose proof (Add_loop_frame _ _ _ _ _ _ E) as [Hf _].
    + cbn [commit _port_mappings]. intros kv Hin.
      apply PyDictFacts.In_update in Hin.
      destruct Hin as [Hin | Hin]; [rewrite Hf in Hin; now apply Hm|].
      destruct kv as [k v]. apply legal_pair_entry_ok.
      now apply (Add_loop_translations_ok _ _ _ _ _ _ E
                   (translations_ok_empty self) k v).
    + now rewrite Hf.
  - now rewrite GetAllMappedPorts_eq.
Qed.

Lemma run_calls_entries_ok p calls :
  Forall (fun call => is_render call = false) calls ->
  forall kv, In kv (_port_mappings (run_calls calls (__init__ p))) ->
             entry_ok kv.
Proof.
  unfold run_calls.
  assert (H : forall kv, In kv (_port_mappings (__init__ p)) -> entry_ok kv)
    by intros ? [].
  revert H. generalize (__init__ p) as self.
  induction calls as [|call calls IH]; intros self Hm Hf; simpl; [exact Hm|].
  inversion Hf as [|? ? Hc Hcs]; subst.
  apply IH; [|exact Hcs]. now apply run_call_entries_ok.
Qed.

(** X8: on an object that calls have made from a new one with
    container port [p], every entry of the mapping has its ports in
    [1, 65535], its container port at least 1024 and not reserved and
    its host port not reserved, or is the serving-port entry
    [(8080, p)]; when none of the calls builds the publish string,
    every entry is of the first kind. *)
Theorem mapping_entries_of_calls p calls :
  (forall kv, In kv (AllMappings (run_calls calls (__init__ p))) ->
              entry_ok kv \/ kv = (VM_PORT_FOR_CONTAINER, p)) /\
  (Forall (fun call => is_render call = false) calls ->
   forall kv, In kv (AllMappings (run_calls calls (__init__ p))) ->
              entry_ok kv).
Proof.
  split; [intros kv; apply run_calls_entries|].
  rewrite AllMappings_eq. apply run_calls_entries_ok.
Qed.

Lemma mapping_entries_of_calls_witness : entry_ok (8000, 9000).
Proof.
  apply (proj2 (mapping_entries_of_calls 8080
                  [CallAdd (PortsList ["8000:9000"]) "forwarded";
                   CallGetAllMappedPorts])).
  - repeat constructor.
  - simpl. auto.
Defined.

(** ** [CreatePortManager] *)

Lemma Add_loop_Return_used kind ports pt self pt' self' :
  Add_loop kind ports pt self = (Return pt', self') ->
  used_host_ports self' =
  PyDict.update (used_host_ports self) (batch_pairs ports).
Proof.
  revert pt self. induction ports as [|port ports IH]; intros pt self.
  - now intros [= _ <-].
  - rewrite Add_loop_cons.
    destruct (Add_port kind port pt self) as [[pt1|e] s1] eqn:E; [|discriminate].
    intros H. apply Add_port_Return in E.
    destruct E as (h & c & Hp & _ & _ & -> & ->).
    rewrite (IH _ _ H). unfold batch_pairs. cbn [flat_map]. now rewrite Hp.
Qed.

Lemma CreatePortManager_eq forwarded_ports cp :
  CreatePortManager forwarded_ports cp =
  match Add (match forwarded_ports with
             | None | Some (PortsStr EmptyString) | Some (PortsList []) =>
                 PortsList []
             | Some ports => ports
             end) "forwarded" (__init__ cp) with
  | (Return _, self) => (Return tt, self)
  | (Raise e, self) => (Raise e, self)
  end.
Proof.
  unfold CreatePortManager. run_method.
  now destruct (Add _ "forwarded" (__init__ cp)) as [[pt|e] s1].
Qed.

(** X9: [CreatePortManager] with no forwarded ports ([None], an empty
    string or an empty list) returns a new object.  When it returns for
    a batch, the object has the container port it was given and a
    mapping that is the pairs of the batch put into an empty
    dictionary one after the other, recorded in [used_host_ports] as
    well, and every entry satisfies the port conditions.  When it
    raises, the exception is justified by the batch, with the kind
    [forwarded]. *)
Theorem CreatePortManager_result ports cp :
  CreatePortManager None cp = (Return tt, __init__ cp) /\
  CreatePortManager (Some (PortsStr "")) cp = (Return tt, __init__ cp) /\
  CreatePortManager (Some (PortsList [])) cp = (Return tt, __init__ cp) /\
  (forall self,
      CreatePortManager (Some ports) cp = (Return tt, self) ->
      self = {| used_host_ports :=
                  PyDict.update PyDict.empty (batch_pairs (port_list ports));
                _port_mappings :=
                  PyDict.update PyDict.empty (batch_pairs (port_list ports));
                container_port := cp |} /\
      forall kv, In kv (AllMappings self) -> entry_ok kv) /\
  (forall e self,
      CreatePortManager (Some ports) cp = (Raise e, self) ->
      justified (__init__ cp) "forwarded" (port_list ports) e /\
      AllMappings self = PyDict.empty).
Proof.
  split; [reflexivity|]. split; [reflexivity|]. split; [reflexivity|].
  assert (Hfalse :
    (ports = PortsStr "" \/ ports = PortsList []) ->
    CreatePortManager (Some ports) cp = (Return tt, __init__ cp) /\
    batch_pairs (port_list ports) = []).
  { intros [-> | ->]; split; reflexivity. }
  assert (Htrue :
    ~ (ports = PortsStr "" \/ ports = PortsList []) ->
    CreatePortManager (Some ports) cp =
    match Add ports "forwarded" (__init__ cp) with
    | (Return _, self) => (Return tt, self)
    | (Raise e, self) => (Raise e, self)
    end).
  { intros Hn. rewrite CreatePortManager_eq.
    destruct ports as [[|a t]|[|x l]]; try reflexivity; exfalso; apply Hn; auto. }
  assert (Hdec : (ports = PortsStr "" \/ ports = PortsList []) \/
                 ~ (ports = PortsStr "" \/ ports = PortsList [])).
  { destruct ports as [[|a t]|[|x l]]; auto;
      right; intros [H | H]; discriminate H. }
  split.
  - intros self H. destruct Hdec as [Hd | Hd].
    + destruct (Hfalse Hd) as [H1 H2]. rewrite H1 in H. injection H as <-.
      rewrite H2. split; [reflexivity | intros kv []].
    + rewrite (Htrue Hd) in H.
      destruct (Add ports "forwarded" (__init__ cp)) as [[pt|e] s1] eqn:HA;
        [|discriminate].
      injection H as <-.
      pose proof HA as HA'. rewrite Add_eq in HA'.
      destruct (Add_loop "forwarded" (port_list ports) PyDict.empty
                         (__init__ cp)) as [[pt1|e] u1] eqn:E; [|discriminate].
      injection HA' as <- <-.
      pose proof (Add_loop_Return_used _ _ _ _ _ _ E) as Hu.
      pose proof (Add_loop_frame _ _ _ _ _ _ E) as [Hf Hc].
      pose proof (Add_loop_change "forwarded" (port_list ports) PyDict.empty
                    PyDict.empty (_port_mappings (__init__ cp)) (__init__ cp))
        as Hch.
      rewrite with_port_mappings_id, E in Hch. injection Hch as Hpt _.
      split.
      * unfold commit. rewrite Hu, Hf, Hc, Hpt. cbn [__init__ used_host_ports
          _port_mappings container_port]. f_equal.
        apply update_empty_l.
        apply PyDictFacts.wf_update, PyDictFacts.wf_empty.
      * rewrite AllMappings_eq. cbn [commit _port_mappings]. rewrite Hf.
        intros kv Hin. apply PyDictFacts.In_update in Hin.
        destruct Hin as [[] | Hin]. destruct kv as [k v].
        apply legal_pair_entry_ok.
        now apply (Add_loop_translations_ok _ _ _ _ _ _ E
                     (translations_ok_empty (__init__ cp)) k v).
  - intros e self H. destruct Hdec as [Hd | Hd].
    + destruct (Hfalse Hd) as [H1 _]. rewrite H1 in H. discriminate.
    + rewrite (Htrue Hd) in H.
      destruct (Add ports "forwarded" (__init__ cp)) as [[pt|e1] s1] eqn:HA;
        [discriminate|].
      injection H as <- <-. rewrite AllMappings_eq.
      pose proof (Add_Raise_frame _ _ _ _ _ HA) as [Hf _].
      split; [|exact Hf].
      rewrite Add_eq in HA.
      destruct (Add_loop "forwarded" (port_list ports) PyDict.empty
                         (__init__ cp)) as [[pt1|e2] u1] eqn:E; [discriminate|].
      injection HA as <- _. eapply Add_loop_Raise_justified; eauto.
Qed.

Lemma CreatePortManager_result_witness :
  {| used_host_ports := [(8000, 9000); (4000, 4000)];
     _port_mappings := [(8000, 9000); (4000, 4000)];
     container_port := 8080 |} =
  {| used_host_ports :=
       PyDict.update PyDict.empty
         (batch_pairs (port_list (PortsStr "8000:9000, 4000")));
     _port_mappings :=
       PyDict.update PyDict.empty
         (batch_pairs (port_list (PortsStr "8000:9000, 4000")));
     container_port := 8080 |}.
Proof.
  destruct (CreatePortManager_result (PortsStr "8000:9000, 4000") 8080)
    as (_ & _ & _ & Hret & _).
  apply (Hret {| used_host_ports := [(8000, 9000); (4000, 4000)];
                 _port_mappings := [(8000, 9000); (4000, 4000)];
                 container_port := 8080 |}).
  reflexivity.
Defined.

(** ** Descriptions as text *)

Lemma lstrip_by_app_spaces f w t :
  PyStr.forall_chars f w = true ->
  PyStr.lstrip_by f (w ++ t) = PyStr.lstrip_by f t.
Proof.
  induction w as [|a w IH]; simpl; [reflexivity|].
  intros H. apply andb_prop in H. destruct H as [Ha Hw]. now rewrite Ha, IH.
Qed.

Lemma rstrip_by_app_spaces f t w :
  PyStr.forall_chars f w = true ->
  PyStr.rstrip_by f (t ++ w) = PyStr.rstrip_by f t.
Proof.
  intros Hw.
  assert (H0 : PyStr.rstrip_by f w = "").
  { induction w as [|a w IH]; simpl in *; [reflexivity|].
    apply andb_prop in Hw. destruct Hw as [Ha Hw]. now rewrite (IH Hw), Ha. }
  induction t as [|a t IH]; simpl; [exact H0 | now rewrite IH].
Qed.

(** White space around a text that has none is stripped. *)
Lemma strip_by_padded f w1 t w2 :
  PyStr.forall_chars f w1 = true -> PyStr.forall_chars f w2 = true ->
  PyStr.forall_chars (fun a => negb (f a)) t = true ->
  PyStr.strip_by f (w1 ++ t ++ w2) = t.
Proof.
  intros H1 H2 Ht. unfold PyStr.strip_by.
  rewrite lstrip_by_app_spaces by exact H1.
  destruct t as [|a t].
  - simpl. clear H1 Ht. induction w2 as [|b w2 IH]; simpl in *; [reflexivity|].
    apply andb_prop in H2. destruct H2 as [Hb H2]. rewrite Hb. now apply IH.
  - assert (Ha : f a = false).
    { simpl in Ht. apply andb_prop in Ht. destruct Ht as [Ha _].
      now apply negb_true_iff in Ha. }
    change ((String a t ++ w2)%string) with (String a (t ++ w2)).
    rewrite PyStrFacts.lstrip_by_head by exact Ha.
    change (String a (t ++ w2)) with ((String a t ++ w2)%string).
    rewrite rstrip_by_app_spaces by exact H2.
    now apply PyStrFacts.rstrip_by_none.
Qed.

Lemma space_classes a :
  PyStr.is_space a = true -> Ascii.eqb a ":" = false.
Proof.
  destruct a as [[|] [|] [|] [|] [|] [|] [|] [|]]; vm_compute;
    intros H; try discriminate H; auto.
Qed.

Lemma int_space_classes a :
  PyStr.is_int_space a = true -> Ascii.eqb a ":" = false.
Proof.
  destruct a as [[|] [|] [|] [|] [|] [|] [|] [|]]; vm_compute;
    intros H; try discriminate H; auto.
Qed.

Lemma spaces_no_colon f w :
  (forall a, f a = true -> Ascii.eqb a ":" = false) ->
  PyStr.forall_chars f w = true ->
  PyStr.forall_chars (fun a => negb (Ascii.eqb a ":")) w = true.
Proof.
  intros Hf. apply PyStrFacts.forall_chars_impl.
  intros a Ha. now rewrite (Hf a Ha).
Qed.

(** X10: white space around the two parts of a description [h:c] is
    ignored, and so is the white space that [int()] skips around a
    description of one port: the texts stand for the same ports as
    the printed integers alone. *)
Theorem parse_port_ignores_white_space h c w1 w2 w3 w4 :
  PyStr.forall_chars PyStr.is_space w1 = true ->
  PyStr.forall_chars PyStr.is_space w2 = true ->
  PyStr.forall_chars PyStr.is_space w3 = true ->
  PyStr.forall_chars PyStr.is_space w4 = true ->
  parse_port ((w1 ++ PyStr.of_int h ++ w2) ++ ":" ++
              (w3 ++ PyStr.of_int c ++ w4)) = Some (h, c) /\
  (PyStr.forall_chars PyStr.is_int_space w1 = true ->
   PyStr.forall_chars PyStr.is_int_space w2 = true ->
   parse_port (w1 ++ PyStr.of_int h ++ w2) = Some (h, h)).
Proof.
  intros H1 H2 H3 H4.
  destruct (PyStrFacts.numeric_no_space _ (PyStrFacts.of_int_numeric h))
    as (Hsh & Hih & Hch).
  destruct (PyStrFacts.numeric_no_space _ (PyStrFacts.of_int_numeric c))
    as (Hsc & _ & Hcc).
  split.
  - unfold parse_port.
    assert (Hl : PyStr.forall_chars (fun a => negb (Ascii.eqb a ":"))
                   (w1 ++ PyStr.of_int h ++ w2) = true).
    { rewrite !PyStrFacts.forall_chars_app, Hch.
      now rewrite !(spaces_no_colon _ _ space_classes) by assumption. }
    assert (Hr : PyStr.forall_chars (fun a => negb (Ascii.eqb a ":"))
                   (w3 ++ PyStr.of_int c ++ w4) = true).
    { rewrite !PyStrFacts.forall_chars_app, Hcc.
      now rewrite !(spaces_no_colon _ _ space_classes) by assumption. }
    change (":" ++ (w3 ++ PyStr.of_int c ++ w4))%string
      with (String ":" (w3 ++ PyStr.of_int c ++ w4)).
    rewrite PyStrFacts.contains_app_sep.
    rewrite PyStrFacts.split_app_sep by exact Hl.
    rewrite PyStrFacts.split_none by exact Hr.
    cbn [map]. unfold PyStr.strip.
    rewrite !strip_by_padded by assumption.
    now rewrite !PyStrFacts.int_of_int.
  - intros H1' H2'. unfold parse_port.
    rewrite PyStrFacts.contains_forall.
    + unfold PyStr.int. rewrite strip_by_padded by assumption.
      pose proof (PyStrFacts.int_of_int h) as Hi. unfold PyStr.int in Hi.
      rewrite PyStrFacts.strip_by_none in Hi by exact Hih.
      now rewrite Hi.
    + rewrite !PyStrFacts.forall_chars_app, Hch.
      now rewrite !(spaces_no_colon _ _ int_space_classes) by assumption.
Qed.

Lemma parse_port_ignores_white_space_witness :
  parse_port ((" " ++ PyStr.of_int 8000 ++ "  ") ++ ":" ++
              (" " ++ PyStr.of_int 9000 ++ " ")) = Some (8000, 9000).
Proof.
  apply (parse_port_ignores_white_space 8000 9000 " " "  " " " " ");
    reflexivity.
Defined.

(** X11: [Add] accepts the printed form of a legal pair, [h:c], and
    of a legal port, [p], when the host port is not recorded with
    another container port: it returns the one-entry dictionary and
    the mapping afterwards is the one from before with the host port
    assigned the container port. *)
Theorem Add_printed_description kind self h c :
  legal_pair h c = true ->
  conflicts h c (used_host_ports self) = false ->
  (exists self',
      Add (PortsList [PyStr.of_int h ++ ":" ++ PyStr.of_int c]) kind self =
      (Return [(h, c)], self') /\
      AllMappings self' = PyDict.set h c (AllMappings self)) /\
  (h = c ->
   exists self',
     Add (PortsList [PyStr.of_int h]) kind self = (Return [(h, h)], self') /\
     AllMappings self' = PyDict.set h h (AllMappings self)).
Proof.
  intros Hl Hc.
  assert (H : forall port, parse_port port = Some (h, c) ->
    exists self',
      Add (PortsList [port]) kind self = (Return [(h, c)], self') /\
      AllMappings self' = PyDict.set h c (AllMappings self)).
  { intros port Hp. rewrite Add_eq. cbn [port_list]. rewrite Add_loop_cons.
    rewrite (Add_port_legal _ _ _ _ _ _ Hp Hc Hl). cbn [Add_loop]. unfold ret.
    eexists. split; [reflexivity|]. now rewrite !AllMappings_eq. }
  split.
  - apply H, parse_port_pair.
  - intros <-. apply H, parse_port_single.
Qed.

Lemma Add_printed_description_witness :
  exists self',
    Add (PortsList [PyStr.of_int 8000 ++ ":" ++ PyStr.of_int 9000])
        "forwarded" (__init__ 8080) = (Return [(8000, 9000)], self') /\
    AllMappings self' = PyDict.set 8000 9000 (AllMappings (__init__ 8080)).
Proof.
  apply (Add_printed_description "forwarded" (__init__ 8080) 8000 9000);
    reflexivity.
Defined.

(** X12: the text that follows [--publish=] in a token of the publish
    string, with the space that ends the token, is a description that
    the parser of [Add] reads as the pair the token was printed
    from. *)
Theorem publish_token_reads_back kv :
  exists body,
    publish_token kv = "--publish=" ++ body /\ parse_port body = Some kv.
Proof.
  destruct kv as [h c].
  exists (PyStr.of_int h ++ ":" ++ PyStr.of_int c ++ " ").
  split; [reflexivity | apply parse_port_token_body].
Qed.

Lemma contains_false_forall c s :
  PyStr.contains c s = false ->
  PyStr.forall_chars (fun a => negb (Ascii.eqb a c)) s = true.
Proof.
  induction s as [|a s IH]; simpl; [reflexivity|].
  intros H. apply orb_false_elim in H. destruct H as [Ha Hs].
  now rewrite Ha, IH.
Qed.

Lemma split_concat_commas l :
  l <> [] ->
  Forall (fun x => PyStr.contains "," x = false) l ->
  PyStr.split "," (String.concat "," l) = l.
Proof.
  induction l as [|x l IH]; [congruence|]. intros _ Hf.
  inversion Hf as [|? ? Hx Hl]; subst. apply contains_false_forall in Hx.
  destruct l as [|y l].
  - simpl. now apply PyStrFacts.split_none.
  - change (String.concat "," (x :: y :: l))
      with (x ++ String "," (String.concat "," (y :: l)))%string.
    rewrite PyStrFacts.split_app_sep by exact Hx.
    rewrite IH; [reflexivity | discriminate | exact Hl].
Qed.

(** X13: for descriptions without commas, [Add] of the string that
    joins them with commas is [Add] of the list of the stripped
    descriptions: white space around an item of the CSV is ignored. *)
Theorem Add_csv_is_Add_list l kind self :
  l <> [] ->
  Forall (fun x => PyStr.contains "," x = false) l ->
  Add (PortsStr (String.concat "," l)) kind self =
  Add (PortsList (map PyStr.strip l)) kind self.
Proof.
  intros Hn Hf. rewrite !Add_eq. cbn [port_list].
  now rewrite split_concat_commas.
Qed.

Lemma Add_csv_is_Add_list_witness :
  Add (PortsStr (String.concat "," [" 8000 : 9000 "; " 4000"])) "forwarded"
      (__init__ 8080) =
  Add (PortsList (map PyStr.strip [" 8000 : 9000 "; " 4000"])) "forwarded"
      (__init__ 8080).
Proof.
  apply (Add_csv_is_Add_list [" 8000 : 9000 "; " 4000"] "forwarded"
           (__init__ 8080)).
  - discriminate.
  - repeat constructor.
Defined.

Lemma strip_by_blank f w :
  PyStr.forall_chars f w = true -> PyStr.strip_by f w = "".
Proof.
  intros H. pose proof (strip_by_padded f w "" "" H eq_refl eq_refl) as E.
  simpl in E. now rewrite append_empty_r in E.
Qed.

(** X14: a CSV string with an item that is empty or all white space
    (the empty string, a comma first or last, two commas in a row)
    makes [Add] raise and commit nothing, while [Add] of the empty
    list returns the empty dictionary and leaves the object as it
    is. *)
Theorem Add_blank_csv_item s kind self item :
  In item (PyStr.split "," s) ->
  PyStr.forall_chars PyStr.is_space item = true ->
  (exists e self',
      Add (PortsStr s) kind self = (Raise e, self') /\
      AllMappings self' = AllMappings self) /\
  Add (PortsList []) kind self = (Return PyDict.empty, self).
Proof.
  intros Hin Hb. split.
  - assert (Hin' : In "" (port_list (PortsStr s))).
    { cbn [port_list]. apply in_map_iff. exists item. split; [|exact Hin].
      now apply strip_by_blank. }
    apply in_split in Hin'. destruct Hin' as (l1 & l2 & Hl).
    assert (Hf : fails_validation self l1 "") by (left; reflexivity).
    destruct (Add_loop_raises_at kind l1 "" l2 PyDict.empty self Hf)
      as (e & self' & He).
    assert (HA : Add (PortsStr s) kind self = (Raise e, self'))
      by now rewrite Add_eq, Hl, He.
    exists e, self'. split; [exact HA|].
    rewrite !AllMappings_eq. now apply Add_Raise_frame in HA.
  - rewrite Add_eq. cbn [port_list Add_loop]. unfold ret, commit, PyDict.update.
    cbn [fold_left PyDict.empty]. now destruct self.
Qed.

Lemma Add_blank_csv_item_witness :
  exists e self',
    Add (PortsStr "8000, ") "forwarded" (__init__ 8080) = (Raise e, self') /\
    AllMappings self' = AllMappings (__init__ 8080).
Proof.
  apply (Add_blank_csv_item "8000, " "forwarded" (__init__ 8080) " ").
  - simpl. auto.
  - reflexivity.
Defined.

(** ** The order of the mapping and of the publish string *)

Lemma set_absent k v d :
  ~ In k (PyDict.keys d) -> PyDict.set k v d = (d ++ [(k, v)])%list.
Proof.
  induction d as [|[k' v'] d IH]; simpl; [reflexivity|].
  intros Hk. destruct (k' =? k) eqn:E; [apply Z.eqb_eq in E; tauto|].
  rewrite IH; tauto.
Qed.

Lemma keys_set_prefix k v d :
  exists extra, PyDict.keys (PyDict.set k v d) = (PyDict.keys d ++ extra)%list.
Proof.
  rewrite PyDictFacts.keys_set. destruct (PyDict.mem k d).
  - exists []. now rewrite app_nil_r.
  - now exists [k].
Qed.

Lemma keys_update_prefix d o :
  exists extra, PyDict.keys (PyDict.update d o) = (PyDict.keys d ++ extra)%list.
Proof.
  unfold PyDict.update. revert d.
  induction o as [|[k v] o IH]; intros d; simpl.
  - exists []. now rewrite app_nil_r.
  - destruct (IH (PyDict.set k v d)) as (e2 & H2).
    destruct (keys_set_prefix k v d) as (e1 & H1).
    exists (e1 ++ e2)%list. now rewrite H2, H1, app_assoc.
Qed.

(** X15: no call changes the order of the host ports of the mapping:
    after a call the host ports that [GetAllMappedPorts] gives are
    those from before the call, in the same order, followed by the
    new ones. *)
Theorem mapping_keeps_order self call :
  exists extra,
    PyDict.keys (AllMappings (run_call self call)) =
    (PyDict.keys (AllMappings self) ++ extra)%list.
Proof.
  rewrite !AllMappings_eq.
  assert (Hbuild : exists extra,
    PyDict.keys (_port_mappings (snd (_BuildDockerPublishArgumentString self))) =
    (PyDict.keys (_port_mappings self) ++ extra)%list).
  { rewrite BuildDockerPublishArgumentString_eq. cbn [snd].
    destruct (PyDict.is_empty (_port_mappings self)).
    - exists []. now rewrite app_nil_r.
    - apply keys_set_prefix. }
  destruct call as [ports kind| | |]; cbn [run_call].
  - destruct (Add ports kind self) as [o self'] eqn:HA. cbn [snd].
    rewrite Add_eq in HA.
    destruct (Add_loop kind (port_list ports) PyDict.empty self)
      as [[pt|e] s1] eqn:E; injection HA as _ <-;
      pose proof (Add_loop_frame _ _ _ _ _ _ E) as [Hf _].
    + cbn [commit _port_mappings]. rewrite Hf. apply keys_update_prefix.
    + rewrite Hf. exists []. now rewrite app_nil_r.
  - rewrite GetAllMappedPorts_eq. exists []. now rewrite app_nil_r.
  - exact Hbuild.
  - now rewrite GetReplicaPoolParameters_state.
Qed.

Lemma join_app l1 l2 :
  PyStr.join (l1 ++ l2) = (PyStr.join l1 ++ PyStr.join l2)%string.
Proof.
  unfold PyStr.join. induction l1 as [|x l1 IH]; simpl; [reflexivity|].
  now rewrite IH, append_assoc.
Qed.

(** X16: on an object made from a new one, with container port [p], by
    calls that do not build the publish string, the publish string is
    the tokens of the entries of the mapping, in the order of the
    mapping, followed by the token of the serving port. *)
Theorem publish_string_order p calls :
  Forall (fun call => is_render call = false) calls ->
  exists self',
    _BuildDockerPublishArgumentString (run_calls calls (__init__ p)) =
    (Return (PyStr.join
               (map publish_token (AllMappings (run_calls calls (__init__ p))))
             ++ publish_token (VM_PORT_FOR_CONTAINER, p)),
     self').
Proof.
  intros Hf. rewrite BuildDockerPublishArgumentString_eq, AllMappings_eq.
  eexists. f_equal. f_equal.
  destruct (run_calls_recorded p calls) as [Hp _].
  pose proof (run_calls_entries_ok p calls Hf) as Hok.
  set (self := run_calls calls (__init__ p)) in *.
  unfold published_pairs, PyDict.items. rewrite Hp.
  rewrite set_absent.
  - rewrite map_app, join_app. cbn [map]. unfold PyStr.join at 2.
    cbn [fold_right]. now rewrite append_empty_r.
  - unfold PyDict.keys. rewrite in_map_iff. intros ([k v] & Hk & Hin).
    cbn [fst] in Hk. subst k.
    destruct (Hok _ Hin) as (_ & _ & _ & _ & Hr). apply Hr. simpl. auto.
Qed.

Lemma publish_string_order_witness :
  exists self',
    _BuildDockerPublishArgumentString
      (run_calls [CallAdd (PortsList ["9000"; "8000:8500"]) "forwarded"]
                 (__init__ 8080)) =
    (Return "--publish=9000:9000 --publish=8000:8500 --publish=8080:8080 ",
     self').
Proof.
  apply (publish_string_order 8080
           [CallAdd (PortsList ["9000"; "8000:8500"]) "forwarded"]).
  repeat constructor.
Defined.
